(** * jwp.jwmultithreaded: pool dispatch, fail-fast and failsafe

    A shallow embedding of [jwp/jwmultithreaded.py] together with the part of
    CPython's [multiprocessing.pool] that the module drives ([Pool],
    [ThreadPool], [starmap], [starmap_async], [apply_async], [get] and the
    context-manager protocol), followed by the properties of the four dispatch
    functions and of the deprecated class [jwmultithreaded]. *)

From Stdlib Require Import ZArith String List Bool Lia Permutation.
From Stdlib Require Import Uint63 PrimFloat.
From Equations Require Import Equations.
Import ListNotations.
Local Open Scope string_scope.
Local Open Scope list_scope.
Local Open Scope Z_scope.

(** ** Python values, exceptions and outcomes *)

(** The values that the worker functions of this development return. *)
Inductive pyval : Type :=
| PyNone
| PyInt (z : Z)
| PyFloat (f : float)
| PyStr (s : string).

(** An exception instance: its class name and its message. *)
Record exn : Type := Exn { exc_type : string; exc_msg : string }.

Definition ValueError (msg : string) : exn := Exn "ValueError" msg.
Definition TypeError (msg : string) : exn := Exn "TypeError" msg.
Definition ZeroDivisionError (msg : string) : exn := Exn "ZeroDivisionError" msg.

(** What evaluating a Python expression gives: a value or a raised exception. *)
Inductive outcome (A : Type) : Type :=
| Ok (a : A)
| Raise (e : exn).
Arguments Ok {A} a.
Arguments Raise {A} e.

(** One unit of work: the positional arguments of a single call of the
    target function. *)
Definition workitem : Type := list pyval.

(** The target function [fn], applied to an unpacked work item. *)
Definition pyfun : Type := workitem -> outcome pyval.

(** ** Classes, objects and [type(x) is C] *)

(** The pool classes: [multiprocessing.pool.Pool], its subclass
    [multiprocessing.pool.ThreadPool], and the module's own subclass
    [MyPool] (source line 102). *)
Inductive pool_class : Type := Pool | ThreadPool | MyPool.

(** What [type(x)] can return for the objects below: the metaclass [type]
    (the type of every class object) or one of the pool classes (the type of
    an instance). *)
Inductive pytype : Type :=
| Ty_type
| Ty_class (c : pool_class).

(** What a caller can pass as [pool_type]: a class object, or (by mistake) an
    already constructed instance of a class. *)
Inductive pyobj : Type :=
| ClassObj (c : pool_class)
| InstanceOf (c : pool_class).

(** [type(x)]. *)
Definition py_type (x : pyobj) : pytype :=
  match x with
  | ClassObj _ => Ty_type
  | InstanceOf c => Ty_class c
  end.

Definition pool_class_eqb (a b : pool_class) : bool :=
  match a, b with
  | Pool, Pool | ThreadPool, ThreadPool | MyPool, MyPool => true
  | _, _ => false
  end.

(** [a is b] on types (object identity). *)
Definition py_is (a b : pytype) : bool :=
  match a, b with
  | Ty_type, Ty_type => true
  | Ty_class c, Ty_class d => pool_class_eqb c d
  | _, _ => false
  end.

Definition class_name (c : pool_class) : string :=
  match c with
  | Pool => "Pool"
  | ThreadPool => "ThreadPool"
  | MyPool => "MyPool"
  end.

(** ** Observable effects *)

(** What a dispatch call does to the outside world, in order. *)
Inductive event : Type :=
| PoolStart (c : pool_class) (processes : Z) (maxtasksperchild : option Z)
    (* a pool of class [c] was constructed and its workers were spawned *)
| PoolTerminate
    (* [__exit__] of the pool: [terminate()] *)
| Invoke (item : workitem)
    (* a worker called [fn] applied to the unpacked item *)
| Print (line : string)
    (* [print(line)] *)
| PrintExc (e : exn).
    (* [traceback.print_exc()] while [e] is being handled *)

Definition trace : Type := list event.

(** Computations that may raise and that extend the trace. *)
Definition M (A : Type) : Type := trace -> outcome A * trace.

Definition ret {A} (a : A) : M A := fun t => (Ok a, t).

Definition raise {A} (e : exn) : M A := fun t => (Raise e, t).

Definition bind {A B} (m : M A) (k : A -> M B) : M B :=
  fun t =>
    match m t with
    | (Ok a, t') => k a t'
    | (Raise e, t') => (Raise e, t')
    end.

Definition emit (ev : event) : M unit := fun t => (Ok tt, t ++ [ev]).

(** [try: m  except: ...] seen from outside: the outcome of [m] as a value. *)
Definition try_ {A} (m : M A) : M (outcome A) :=
  fun t => let '(r, t') := m t in (Ok r, t').

(** Re-raise a caught outcome. *)
Definition of_outcome {A} (r : outcome A) : M A := fun t => (r, t).

Declare Scope py_scope.
Delimit Scope py_scope with py.
Notation "x <- m ;; k" := (bind m (fun x => k))
  (at level 61, m at next level, right associativity) : py_scope.
Notation "m ;; k" := (bind m (fun _ => k))
  (at level 61, right associativity) : py_scope.
Local Open Scope py_scope.

(** A list comprehension or [list(map(...))] whose body may raise: the first
    exception ends it. *)
Fixpoint mapM {A B} (f : A -> M B) (l : list A) : M (list B) :=
  match l with
  | [] => ret []
  | a :: l' => b <- f a ;; bs <- mapM f l' ;; ret (b :: bs)
  end.

(** A [for] loop that updates an accumulator. *)
Fixpoint foldM {A B} (f : B -> A -> M B) (l : list A) (acc : B) : M B :=
  match l with
  | [] => ret acc
  | a :: l' => acc' <- f acc a ;; foldM f l' acc'
  end.

(** ** The target functions of the spec's scenarios *)

(** [float(z)] for an integer below 2^63 in magnitude. *)
Definition float_of_Z (z : Z) : float :=
  match z with
  | Z0 => PrimFloat.zero
  | Zpos p => PrimFloat.of_uint63 (Uint63.of_Z z)
  | Zneg p => PrimFloat.opp (PrimFloat.of_uint63 (Uint63.of_Z (Zpos p)))
  end.

(** [a * b]. *)
Definition py_mul (a b : pyval) : outcome pyval :=
  match a, b with
  | PyInt x, PyInt y => Ok (PyInt (x * y))
  | PyFloat x, PyFloat y => Ok (PyFloat (PrimFloat.mul x y))
  | PyInt x, PyFloat y => Ok (PyFloat (PrimFloat.mul (float_of_Z x) y))
  | PyFloat x, PyInt y => Ok (PyFloat (PrimFloat.mul x (float_of_Z y)))
  | _, _ => Raise (TypeError "unsupported operand type(s) for *")
  end.

(** [a / b] (true division).  For two integers CPython returns the correctly
    rounded quotient; it is computed here as the quotient of the two
    conversions, which is the same float whenever both integers are exactly
    representable (magnitude at most 2^53). *)
Definition py_truediv (a b : pyval) : outcome pyval :=
  match a, b with
  | PyInt x, PyInt y =>
      if y =? 0 then Raise (ZeroDivisionError "division by zero")
      else Ok (PyFloat (PrimFloat.div (float_of_Z x) (float_of_Z y)))
  | PyFloat x, PyFloat y =>
      if PrimFloat.eqb y PrimFloat.zero
      then Raise (ZeroDivisionError "float division by zero")
      else Ok (PyFloat (PrimFloat.div x y))
  | PyInt x, PyFloat y =>
      if PrimFloat.eqb y PrimFloat.zero
      then Raise (ZeroDivisionError "float division by zero")
      else Ok (PyFloat (PrimFloat.div (float_of_Z x) y))
  | PyFloat x, PyInt y =>
      if y =? 0 then Raise (ZeroDivisionError "float division by zero")
      else Ok (PyFloat (PrimFloat.div x (float_of_Z y)))
  | _, _ => Raise (TypeError "unsupported operand type(s) for /")
  end.

(** [def square(x): return x*x] *)
Definition square : pyfun := fun item =>
  match item with
  | [x] => py_mul x x
  | _ => Raise (TypeError "square() takes exactly 1 positional argument")
  end.

(** [def reciprocal(x): return 1/x] *)
Definition reciprocal : pyfun := fun item =>
  match item with
  | [x] => py_truediv (PyInt 1) x
  | _ => Raise (TypeError "reciprocal() takes exactly 1 positional argument")
  end.

(** ** multiprocessing.pool

    The part of CPython's [Lib/multiprocessing/pool.py] that the module
    calls.  Work handed to a pool is carried out by the time the submitting
    call returns (one of the interleavings the real pool allows); what [get]
    returns does not depend on that choice, except for the order in which the
    batches of a [starmap] finish, which is left to a [scheduler]. *)

(** The order in which the workers finish the batches handed to them: some
    rearrangement of the batches, not under the caller's control. *)
Record scheduler : Type := {
  completion_order : forall A : Type, list A -> list A;
  completion_order_perm :
    forall (A : Type) (l : list A), Permutation (completion_order A l) l
}.

(** Batches finish in the order they were submitted. *)
Definition fifo : scheduler :=
  {| completion_order := fun _ l => l;
     completion_order_perm := fun _ l => Permutation_refl l |}.

(** Batches finish in the opposite order. *)
Definition lifo : scheduler :=
  {| completion_order := fun A l => rev l;
     completion_order_perm := fun A l => Permutation_sym (Permutation_rev l) |}.

(** A constructed pool. *)
Record pool : Type := {
  pool_cls : pool_class;
  pool_processes : Z;
  pool_maxtasksperchild : option Z
}.

(** [Pool.__init__(self, processes, maxtasksperchild=None)]: the size is
    checked first; only then are the workers spawned. *)
Definition Pool_init (c : pool_class) (processes : Z)
    (maxtasksperchild : option Z) : M pool :=
  if processes <? 1
  then raise (ValueError "Number of processes must be at least 1")
  else
    emit (PoolStart c processes maxtasksperchild) ;;
    ret {| pool_cls := c; pool_processes := processes;
           pool_maxtasksperchild := maxtasksperchild |}.

(** The call [pool_type(processes)] ([kw = None]) or
    [pool_type(processes, maxtasksperchild=m)] ([kw = Some m]).
    [ThreadPool.__init__] has no [maxtasksperchild] parameter, and an
    instance of a pool class is not callable. *)
Definition call_pool_type (pool_type : pyobj) (processes : Z)
    (kw : option Z) : M pool :=
  match pool_type with
  | InstanceOf c =>
      raise (TypeError ("'" ++ class_name c ++ "' object is not callable"))
  | ClassObj ThreadPool =>
      match kw with
      | Some _ =>
          raise (TypeError
            "__init__() got an unexpected keyword argument 'maxtasksperchild'")
      | None => Pool_init ThreadPool processes None
      end
  | ClassObj c => Pool_init c processes kw
  end.

(** [with ctor as pool: body(pool)]: [__exit__] terminates the pool on every
    way out of the body; a failing constructor never enters the block. *)
Definition with_pool {A} (ctor : M pool) (body : pool -> M A) : M A :=
  p <- ctor ;;
  r <- try_ (body p) ;;
  emit PoolTerminate ;;
  of_outcome r.

(** A worker calls the target function on one unpacked work item. *)
Definition invoke (fn : pyfun) (item : workitem) : M pyval :=
  emit (Invoke item) ;; of_outcome (fn item).

(** The worker loop's [try: result = (True, func(...))  except Exception as e:
    result = (False, e)]. *)
Definition worker {A} (task : M A) : M (outcome A) := try_ task.

(** [starmapstar]: [list(itertools.starmap(fn, batch))], one batch run by one
    worker; the first exception ends the batch. *)
Definition starmapstar (fn : pyfun) (batch : list workitem) : M (list pyval) :=
  mapM (invoke fn) batch.

(** [Pool._get_tasks]: cut the work items into batches of [size]
    ([while 1: x = tuple(islice(it, size)); if not x: return; yield x]). *)
Equations? get_tasks {A} (it : list A) (size : nat) : list (list A)
  by wf (length it) lt :=
  get_tasks [] _ := [];
  get_tasks (_ :: _) O := [];
  get_tasks (a :: it') (S n) :=
    firstn (S n) (a :: it') :: get_tasks (skipn (S n) (a :: it')) (S n).
Proof.
  simpl. rewrite length_skipn. lia.
Qed.

(** [enumerate]. *)
Definition enumerate {A} (l : list A) : list (nat * A) :=
  combine (seq 0 (length l)) l.

(** [v[lo:hi] = r] for [lo <= hi]. *)
Definition slice_assign {A} (v : list A) (lo hi : nat) (r : list A) : list A :=
  firstn lo v ++ r ++ skipn hi v.

(** [MapResult]: [_success] and [_value] together ([Ok v] while every batch
    so far succeeded, [Raise e] once a batch failed) and [_chunksize]. *)
Record MapResult : Type := {
  mr_value : outcome (list pyval);
  mr_chunksize : nat
}.

(** [MapResult.__init__]: [_value = [None] * length]. *)
Definition MapResult_init (chunksize length : nat) : MapResult :=
  {| mr_value := Ok (repeat PyNone length); mr_chunksize := chunksize |}.

(** [MapResult._set(i, (success, result))]: a successful batch is written to
    its slice; only the first exception is stored. *)
Definition MapResult_set (mr : MapResult) (i : nat)
    (r : outcome (list pyval)) : MapResult :=
  match mr_value mr, r with
  | Ok v, Ok result =>
      {| mr_value :=
           Ok (slice_assign v (i * mr_chunksize mr)
                 ((i + 1) * mr_chunksize mr) result);
         mr_chunksize := mr_chunksize mr |}
  | Ok _, Raise e =>
      {| mr_value := Raise e; mr_chunksize := mr_chunksize mr |}
  | Raise _, _ => mr
  end.

(** [MapResult.get()], once every batch has reported. *)
Definition MapResult_get (mr : MapResult) : M (list pyval) :=
  of_outcome (mr_value mr).

(** [Pool._map_async(fn, iterable, starmapstar, chunksize)] followed by the
    work of the pool: the batches run, and report to the [MapResult] in the
    order the scheduler finishes them.  A chunk size that is not positive
    yields no batch at all. *)
Definition starmap_async (sched : scheduler) (p : pool) (fn : pyfun)
    (iterable : list workitem) (chunksize : Z) : M MapResult :=
  let chunksize := if (length iterable =? 0)%nat then 0 else chunksize in
  let task_batches := get_tasks iterable (Z.to_nat chunksize) in
  let result := MapResult_init (Z.to_nat chunksize) (length iterable) in
  foldM (fun mr '(i, batch) =>
           r <- worker (starmapstar fn batch) ;;
           ret (MapResult_set mr i r))
        (completion_order sched _ (enumerate task_batches)) result.

(** [Pool.starmap(fn, iterable, chunksize)]. *)
Definition starmap (sched : scheduler) (p : pool) (fn : pyfun)
    (iterable : list workitem) (chunksize : Z) : M (list pyval) :=
  mr <- starmap_async sched p fn iterable chunksize ;;
  MapResult_get mr.

(** [ApplyResult]: the handle of one asynchronous call; it holds what the
    worker reported. *)
Definition ApplyResult : Type := outcome pyval.

(** [Pool.apply_async(fn, item)]. *)
Definition apply_async (p : pool) (fn : pyfun) (item : workitem) : M ApplyResult :=
  worker (invoke fn item).

(** [ApplyResult.get()]: the value, or the worker's exception re-raised. *)
Definition ApplyResult_get (r : ApplyResult) : M pyval := of_outcome r.

(** What a [for] loop may be asked to iterate over here. *)
Inductive pyiterable : Type :=
| PyListOf (l : list ApplyResult)
| PyMapResult (mr : MapResult).

(** [iter(x)]: a list gives its elements; [MapResult] defines neither
    [__iter__] nor [__getitem__]. *)
Definition py_iter (x : pyiterable) : M (list ApplyResult) :=
  match x with
  | PyListOf l => ret l
  | PyMapResult _ => raise (TypeError "'MapResult' object is not iterable")
  end.

(** ** jwp/jwmultithreaded.py: the free functions *)

(** The four lines printed for a failed item when [verbose] holds. *)
Definition print_traceback (e : exn) : M unit :=
  emit (Print "######BEGIN TRACEBACK######") ;;
  emit (PrintExc e) ;;
  emit (Print "######END TRACEBACK######") ;;
  emit (Print "").

(** [multithread(fn, args, pool_type, processes, maxtasksperchild, chunksize)],
    source lines 11-32. *)
Definition multithread (sched : scheduler) (fn : pyfun) (args : list workitem)
    (pool_type : pyobj) (processes maxtasksperchild chunksize : Z)
  : M (list pyval) :=
  let helper := fun pool => starmap sched pool fn args chunksize in
  if py_is (py_type pool_type) (Ty_class Pool)
  then with_pool (call_pool_type pool_type processes (Some maxtasksperchild))
         (fun pool => results <- helper pool ;; ret results)
  else with_pool (call_pool_type pool_type processes None)
         (fun pool => results <- helper pool ;; ret results).

(** [safe_multithread(fn, args, processes, chunksize)], source lines 35-39;
    [maxtasksperchild] is left at the default of [multithread]. *)
Definition safe_multithread (sched : scheduler) (fn : pyfun) (args : list workitem)
    (processes chunksize : Z) : M (list pyval) :=
  multithread sched fn args (ClassObj ThreadPool) processes 1 chunksize.

(** The collection loop of [multithread_failsafe.helper], source lines 53-61:
    [results] is the list built so far. *)
Fixpoint collect (verbose : bool) (result_objs : list ApplyResult)
    (results : list pyval) : M (list pyval) :=
  match result_objs with
  | [] => ret results
  | r :: rest =>
      got <- try_ (ApplyResult_get r) ;;
      match got with
      | Ok v => collect verbose rest (results ++ [v])
      | Raise e =>
          (if verbose then print_traceback e else ret tt) ;;
          collect verbose rest results
      end
  end.

(** [multithread_failsafe(fn, args, pool_type, processes, chunksize, verbose)],
    source lines 42-74. *)
Definition multithread_failsafe (sched : scheduler) (fn : pyfun)
    (args : list workitem) (pool_type : pyobj) (processes chunksize : Z)
    (verbose : bool) : M (list pyval) :=
  let helper := fun pool =>
    let results := [] in
    result_objs <- mapM (fun arg => apply_async pool fn arg) args ;;
    rs <- py_iter (PyListOf result_objs) ;;
    collect verbose rs results in
  if py_is (py_type pool_type) (Ty_class Pool)
  then with_pool (call_pool_type pool_type processes None)
         (fun pool => results <- helper pool ;; ret results)
  else with_pool (call_pool_type pool_type processes None)
         (fun pool => results <- helper pool ;; ret results).

(** [safe_multithread_failsafe(fn, args, processes, chunksize, verbose)],
    source lines 77-82. *)
Definition safe_multithread_failsafe (sched : scheduler) (fn : pyfun)
    (args : list workitem) (processes chunksize : Z) (verbose : bool)
  : M (list pyval) :=
  multithread_failsafe sched fn args (ClassObj ThreadPool) processes 1 verbose.

(** *** Calls with keyword arguments left out *)

(** The keyword arguments of a call; [None] is an argument left out. *)
Record kwargs : Type := {
  kw_args : option (list workitem);
  kw_pool_type : option pyobj;
  kw_processes : option Z;
  kw_maxtasksperchild : option Z;
  kw_chunksize : option Z;
  kw_verbose : option bool
}.

Definition no_kwargs : kwargs :=
  {| kw_args := None; kw_pool_type := None; kw_processes := None;
     kw_maxtasksperchild := None; kw_chunksize := None; kw_verbose := None |}.

Definition given {A} (o : option A) : bool :=
  match o with Some _ => true | None => false end.

Definition or_default {A} (o : option A) (d : A) : A :=
  match o with Some a => a | None => d end.

Definition unexpected_keyword (f name : string) : exn :=
  TypeError (f ++ "() got an unexpected keyword argument '" ++ name ++ "'").

(** [multithread(fn, **kw)] with the defaults of line 11-13; [cpus] is the
    module-level [cpu_count()] of line 8. *)
Definition multithread_call (sched : scheduler) (cpus : Z) (fn : pyfun)
    (kw : kwargs) : M (list pyval) :=
  if given (kw_verbose kw)
  then raise (unexpected_keyword "multithread" "verbose")
  else
    multithread sched fn
      (or_default (kw_args kw) [[]])
      (or_default (kw_pool_type kw) (ClassObj Pool))
      (or_default (kw_processes kw) cpus)
      (or_default (kw_maxtasksperchild kw) 1)
      (or_default (kw_chunksize kw) 1).

(** [safe_multithread(fn, **kw)] with the defaults of line 35. *)
Definition safe_multithread_call (sched : scheduler) (cpus : Z) (fn : pyfun)
    (kw : kwargs) : M (list pyval) :=
  if given (kw_pool_type kw)
  then raise (unexpected_keyword "safe_multithread" "pool_type")
  else if given (kw_maxtasksperchild kw)
  then raise (unexpected_keyword "safe_multithread" "maxtasksperchild")
  else if given (kw_verbose kw)
  then raise (unexpected_keyword "safe_multithread" "verbose")
  else
    safe_multithread sched fn
      (or_default (kw_args kw) [[]])
      (or_default (kw_processes kw) cpus)
      (or_default (kw_chunksize kw) 1).

(** [multithread_failsafe(fn, **kw)] with the defaults of lines 42-43. *)
Definition multithread_failsafe_call (sched : scheduler) (cpus : Z) (fn : pyfun)
    (kw : kwargs) : M (list pyval) :=
  if given (kw_maxtasksperchild kw)
  then raise (unexpected_keyword "multithread_failsafe" "maxtasksperchild")
  else
    multithread_failsafe sched fn
      (or_default (kw_args kw) [[]])
      (or_default (kw_pool_type kw) (ClassObj Pool))
      (or_default (kw_processes kw) cpus)
      (or_default (kw_chunksize kw) 1)
      (or_default (kw_verbose kw) true).

(** [safe_multithread_failsafe(fn, **kw)] with the defaults of line 77. *)
Definition safe_multithread_failsafe_call (sched : scheduler) (cpus : Z)
    (fn : pyfun) (kw : kwargs) : M (list pyval) :=
  if given (kw_pool_type kw)
  then raise (unexpected_keyword "safe_multithread_failsafe" "pool_type")
  else if given (kw_maxtasksperchild kw)
  then raise (unexpected_keyword "safe_multithread_failsafe" "maxtasksperchild")
  else
    safe_multithread_failsafe sched fn
      (or_default (kw_args kw) [[]])
      (or_default (kw_processes kw) cpus)
      (or_default (kw_chunksize kw) 1)
      (or_default (kw_verbose kw) true).

(** ** The deprecated class [jwmultithreaded], source lines 108-186 *)

Module jwmultithreaded.

(** An instance: the one field set by [__init__]. *)
Record self_t : Type := { cache_updated : bool }.

Definition __init__ : self_t := {| cache_updated := false |}.

(** Method [multithread], source lines 115-136. *)
Definition multithread (sched : scheduler) (self : self_t) (fn : pyfun)
    (args : list workitem) (pool_type : pyobj)
    (processes maxtasksperchild chunksize : Z) : M (list pyval) :=
  let helper := fun pool => starmap sched pool fn args chunksize in
  if py_is (py_type pool_type) (Ty_class Pool)
  then with_pool (call_pool_type pool_type processes (Some maxtasksperchild))
         (fun pool => results <- helper pool ;; ret results)
  else with_pool (call_pool_type pool_type processes None)
         (fun pool => results <- helper pool ;; ret results).

(** Method [safe_multithread], source lines 138-145. *)
Definition safe_multithread (sched : scheduler) (self : self_t) (fn : pyfun)
    (args : list workitem) (processes chunksize : Z) : M (list pyval) :=
  multithread sched self fn args (ClassObj ThreadPool) processes 1 chunksize.

(** Method [multithread_failsafe], source lines 147-179: the loop iterates
    over what [starmap_async] returns. *)
Definition multithread_failsafe (sched : scheduler) (self : self_t) (fn : pyfun)
    (args : list workitem) (pool_type : pyobj)
    (processes maxtasksperchild chunksize : Z) (verbose : bool)
  : M (list pyval) :=
  let helper := fun pool =>
    let results := [] in
    mr <- starmap_async sched pool fn args chunksize ;;
    rs <- py_iter (PyMapResult mr) ;;
    collect verbose rs results in
  if py_is (py_type pool_type) (Ty_class Pool)
  then with_pool (call_pool_type pool_type processes (Some maxtasksperchild))
         (fun pool => results <- helper pool ;; ret results)
  else with_pool (call_pool_type pool_type processes None)
         (fun pool => results <- helper pool ;; ret results).

(** Method [safe_multithread_failsafe], source lines 181-186. *)
Definition safe_multithread_failsafe (sched : scheduler) (self : self_t)
    (fn : pyfun) (args : list workitem) (processes : Z) (verbose : bool)
  : M (list pyval) :=
  multithread_failsafe sched self fn args (ClassObj ThreadPool) processes 1 1 verbose.

End jwmultithreaded.


(** ** Specification-level functions used in the statements *)

(** A batch run by one worker, as a pure function: the results of its items,
    or the first exception. *)
Fixpoint run_batch (fn : pyfun) (batch : list workitem) : outcome (list pyval) :=
  match batch with
  | [] => Ok []
  | item :: rest =>
      match fn item with
      | Ok v =>
          match run_batch fn rest with
          | Ok vs => Ok (v :: vs)
          | Raise e => Raise e
          end
      | Raise e => Raise e
      end
  end.

(** The items of a batch that the worker gets to: all of them up to and
    including the first that raises. *)
Fixpoint attempted (fn : pyfun) (batch : list workitem) : list workitem :=
  match batch with
  | [] => []
  | item :: rest =>
      match fn item with
      | Ok _ => item :: attempted fn rest
      | Raise _ => [item]
      end
  end.

(** The exception of the first item, in list order, on which [fn] raises. *)
Fixpoint first_failure (fn : pyfun) (items : list workitem) : option exn :=
  match items with
  | [] => None
  | item :: rest =>
      match fn item with
      | Raise e => Some e
      | Ok _ => first_failure fn rest
      end
  end.

Definition is_Ok {A} (r : outcome A) : bool :=
  match r with Ok _ => true | Raise _ => false end.

(** The results of the items on which [fn] returns, in list order. *)
Fixpoint successes (fn : pyfun) (items : list workitem) : list pyval :=
  match items with
  | [] => []
  | item :: rest =>
      match fn item with
      | Ok v => v :: successes fn rest
      | Raise _ => successes fn rest
      end
  end.

(** The batch with index [i] when [l] is cut into batches of [size]. *)
Definition batch_at {A} (l : list A) (size i : nat) : list A :=
  firstn size (skipn (i * size) l).


(** One finished batch reporting to the [MapResult]. *)
Definition report (fn : pyfun) (mr : MapResult) (c : nat * list workitem)
  : MapResult :=
  MapResult_set mr (fst c) (run_batch fn (snd c)).

(** The batches of a [starmap] call, in the order they finish. *)
Definition completions (sched : scheduler) (args : list workitem) (chunksize : Z)
  : list (nat * list workitem) :=
  completion_order sched _ (enumerate (get_tasks args (Z.to_nat chunksize))).

(** What the loop prints for the handles that re-raise. *)
Fixpoint diagnostics (verbose : bool) (rs : list ApplyResult) : trace :=
  match rs with
  | [] => []
  | Ok _ :: rest => diagnostics verbose rest
  | Raise e :: rest =>
      (if verbose
       then [Print "######BEGIN TRACEBACK######"; PrintExc e;
             Print "######END TRACEBACK######"; Print ""]
       else []) ++ diagnostics verbose rest
  end.

(** The values of the handles that return. *)
Fixpoint returned (rs : list ApplyResult) : list pyval :=
  match rs with
  | [] => []
  | Ok v :: rest => v :: returned rest
  | Raise _ :: rest => returned rest
  end.

(** The pool object that a successful construction returns. *)
Definition the_pool (c : pool_class) (processes : Z) (m : option Z) : pool :=
  {| pool_cls := c; pool_processes := processes; pool_maxtasksperchild := m |}.

(** The value [fn] returns on an item, where it returns. *)
Definition value_of (fn : pyfun) (item : workitem) : pyval :=
  match fn item with Ok v => v | Raise _ => PyNone end.

(** The keyword arguments of a call that passes [args] only. *)
Definition only_args (args : list workitem) : kwargs :=
  {| kw_args := Some args; kw_pool_type := None; kw_processes := None;
     kw_maxtasksperchild := None; kw_chunksize := None; kw_verbose := None |}.

(** The keyword arguments of a call that passes [args] and [verbose]. *)
Definition args_and_verbose (args : list workitem) (verbose : bool) : kwargs :=
  {| kw_args := Some args; kw_pool_type := None; kw_processes := None;
     kw_maxtasksperchild := None; kw_chunksize := None;
     kw_verbose := Some verbose |}.

(** The keyword arguments of a call that leaves [args] out and may pass
    [processes] and [chunksize], the two other keywords that all four
    functions accept. *)
Definition without_args (processes chunksize : option Z) : kwargs :=
  {| kw_args := None; kw_pool_type := None; kw_processes := processes;
     kw_maxtasksperchild := None; kw_chunksize := chunksize;
     kw_verbose := None |}.

(** The work items of a batch that its worker never gets to: those after
    the first that raises. *)
Fixpoint unattempted (fn : pyfun) (batch : list workitem) : list workitem :=
  match batch with
  | [] => []
  | item :: rest =>
      match fn item with
      | Ok _ => unattempted fn rest
      | Raise _ => rest
      end
  end.

(** The calls of [fn] that the workers of a [starmap] make, batch by batch in
    the order the batches finish. *)
Definition calls_of (sched : scheduler) (fn : pyfun) (args : list workitem)
    (chunksize : Z) : list workitem :=
  flat_map (fun c => attempted fn (snd c)) (completions sched args chunksize).

(** The work items of a [starmap] on which [fn] is not called. *)
Definition skipped_of (sched : scheduler) (fn : pyfun) (args : list workitem)
    (chunksize : Z) : list workitem :=
  flat_map (fun c => unattempted fn (snd c)) (completions sched args chunksize).

(** The exceptions of the items on which [fn] raises, in list order. *)
Fixpoint failures (fn : pyfun) (items : list workitem) : list exn :=
  match items with
  | [] => []
  | item :: rest =>
      match fn item with
      | Ok _ => failures fn rest
      | Raise e => e :: failures fn rest
      end
  end.

(** The exceptions whose traceback a trace shows, in order. *)
Fixpoint printed_exceptions (t : trace) : list exn :=
  match t with
  | [] => []
  | PrintExc e :: rest => e :: printed_exceptions rest
  | _ :: rest => printed_exceptions rest
  end.

(** The lines that a trace prints with [print], in order. *)
Fixpoint printed_lines (t : trace) : list string :=
  match t with
  | [] => []
  | Print line :: rest => line :: printed_lines rest
  | _ :: rest => printed_lines rest
  end.

(** ** [NoDaemonProcess], source lines 89-96 *)


(** The [daemon] property that [multiprocessing.Process] defines and
    [NoDaemonProcess] overrides (CPython, [multiprocessing/process.py]). *)
Module BaseProcess.



End BaseProcess.

Module NoDaemonProcess.



End NoDaemonProcess.


(** ** The monad on concrete traces *)

Lemma bind_ok {A B} (m : M A) (k : A -> M B) t a t' :
  m t = (Ok a, t') -> bind m k t = k a t'.
Proof. unfold bind. intros ->. reflexivity. Qed.

Lemma bind_raise {A B} (m : M A) (k : A -> M B) t e t' :
  m t = (Raise e, t') -> bind m k t = (Raise e, t').
Proof. unfold bind. intros ->. reflexivity. Qed.

Lemma mapM_invoke fn batch t :
  mapM (invoke fn) batch t = (run_batch fn batch, t ++ map Invoke (attempted fn batch)).
Proof.
  revert t. induction batch as [|item rest IH]; intros t; simpl.
  - unfold ret. now rewrite app_nil_r.
  - unfold bind at 1. unfold invoke at 1, bind, emit, of_outcome.
    destruct (fn item) as [v|e]; simpl.
    + rewrite IH. rewrite <- app_assoc. simpl.
      destruct (run_batch fn rest); reflexivity.
    + reflexivity.
Qed.

Lemma worker_starmapstar fn batch t :
  worker (starmapstar fn batch) t =
  (Ok (run_batch fn batch), t ++ map Invoke (attempted fn batch)).
Proof.
  unfold worker, try_, starmapstar. now rewrite mapM_invoke.
Qed.

Lemma foldM_pure {A B} (step : B -> A -> M B) (g : B -> A -> B)
    (ev : A -> trace) :
  (forall acc a t, step acc a t = (Ok (g acc a), t ++ ev a)) ->
  forall l acc t,
    foldM step l acc t = (Ok (fold_left g l acc), t ++ flat_map ev l).
Proof.
  intros Hstep. induction l as [|a l IH]; intros acc t; simpl.
  - unfold ret. now rewrite app_nil_r.
  - erewrite bind_ok by apply Hstep. rewrite IH. now rewrite <- app_assoc.
Qed.

(** ** Batches *)

Lemma get_tasks_concat {A} (l : list A) n : concat (get_tasks l (S n)) = l.
Proof.
  remember (S n) as size eqn:E. revert n E.
  funelim (get_tasks l size); intros m E; try discriminate.
  - reflexivity.
  - change (concat (?x :: ?r)) with (x ++ concat r).
    erewrite H by reflexivity. apply firstn_skipn.
Qed.

Lemma nth_error_get_tasks {A} (l : list A) n i :
  nth_error (get_tasks l (S n)) i =
  if (i * S n <? length l)%nat then Some (batch_at l (S n) i) else None.
Proof.
  remember (S n) as size eqn:E. revert n E i.
  funelim (get_tasks l size); intros m E i; try discriminate.
  - destruct i; reflexivity.
  - destruct i as [|i].
    + reflexivity.
    + cbn [nth_error]. erewrite H by reflexivity.
      rewrite length_skipn. unfold batch_at. rewrite skipn_skipn.
      replace (S i * S n)%nat with (i * S n + S n)%nat by lia.
      destruct (Nat.ltb_spec (i * S n) (length (a :: it') - S n));
        destruct (Nat.ltb_spec (i * S n + S n) (length (a :: it')));
        try lia; reflexivity.
Qed.

Lemma In_combine_seq {A} (L : list A) k i (b : A) :
  In (i, b) (combine (seq k (length L)) L) <->
  (k <= i)%nat /\ nth_error L (i - k) = Some b.
Proof.
  revert k. induction L as [|x L IH]; intros k; simpl.
  - split; [tauto|]. intros [_ H]. destruct (i - k)%nat; discriminate.
  - rewrite IH. split.
    + intros [H|[Hk H]].
      * injection H as -> ->. split; [lia|]. now rewrite Nat.sub_diag.
      * split; [lia|]. replace (i - k)%nat with (S (i - S k)) by lia. exact H.
    + intros [Hk H]. destruct (Nat.eq_dec k i) as [->|Hne].
      * left. rewrite Nat.sub_diag in H. simpl in H. congruence.
      * right. split; [lia|].
        replace (i - k)%nat with (S (i - S k)) in H by lia. exact H.
Qed.

Lemma In_enumerate {A} (L : list A) i (b : A) :
  In (i, b) (enumerate L) <-> nth_error L i = Some b.
Proof.
  unfold enumerate. rewrite In_combine_seq, Nat.sub_0_r.
  split; [tauto|]. split; [lia|assumption].
Qed.

Lemma map_snd_enumerate {A} (L : list A) : map snd (enumerate L) = L.
Proof.
  unfold enumerate. generalize 0%nat.
  induction L as [|x L IH]; intros k; simpl; [reflexivity|]. now rewrite IH.
Qed.

(** ** Reports of successful batches land in their own slice *)

Lemma run_batch_all_ok fn (f : workitem -> pyval) batch :
  (forall item, In item batch -> fn item = Ok (f item)) ->
  run_batch fn batch = Ok (map f batch).
Proof.
  induction batch as [|item rest IH]; intros Hok; simpl.
  - reflexivity.
  - rewrite (Hok item) by (now left).
    rewrite IH by (intros; apply Hok; now right). reflexivity.
Qed.

Lemma length_batch_at {A} (l : list A) size i :
  length (batch_at l size i) = Nat.min size (length l - i * size).
Proof. unfold batch_at. now rewrite length_firstn, length_skipn. Qed.

Lemma nth_error_batch_at {A} (l : list A) size i k :
  nth_error (batch_at l size i) k =
  if (k <? size)%nat then nth_error l (i * size + k) else None.
Proof. unfold batch_at. now rewrite nth_error_firstn, nth_error_skipn. Qed.

Lemma In_batch_at {A} (l : list A) size i x :
  In x (batch_at l size i) -> In x l.
Proof.
  unfold batch_at. intros H.
  rewrite <- (firstn_skipn (i * size) l). apply in_or_app. right.
  rewrite <- (firstn_skipn size (skipn (i * size) l)). apply in_or_app.
  now left.
Qed.

Section Slices.
Variables (f : workitem -> pyval) (args : list workitem) (size : nat).

Lemma slice_assign_batch (v : list pyval) i :
  length v = length args -> (i * size < length args)%nat ->
  let v' := slice_assign v (i * size) ((i + 1) * size)
              (map f (batch_at args size i)) in
  length v' = length args /\
  forall j, nth_error v' j =
            if ((i * size <=? j) && (j <? i * size + size))%nat
            then nth_error (map f args) j else nth_error v j.
Proof.
  intros Hlen Hlo v'. subst v'. unfold slice_assign.
  replace ((i + 1) * size)%nat with (i * size + size)%nat by lia.
  assert (Hr : length (map f (batch_at args size i)) =
               Nat.min size (length args - i * size))
    by (now rewrite length_map, length_batch_at).
  remember (i * size)%nat as lo eqn:Elo.
  remember (length args) as n eqn:En.
  assert (Hf : length (firstn lo v) = lo) by (rewrite length_firstn; lia).
  split.
  - rewrite !length_app, Hr, Hf, length_skipn. lia.
  - intros j.
    destruct (Nat.leb_spec lo j) as [Hj|Hj]; cbn [andb].
    + rewrite nth_error_app2 by lia. rewrite Hf.
      destruct (Nat.lt_ge_cases (j - lo) (Nat.min size (n - lo))) as [Hin|Hout].
      * rewrite nth_error_app1 by lia.
        rewrite nth_error_map, nth_error_batch_at, <- Elo.
        destruct (Nat.ltb_spec (j - lo) size); [|lia].
        destruct (Nat.ltb_spec j (lo + size)); [|lia].
        rewrite nth_error_map.
        now replace (lo + (j - lo))%nat with j by lia.
      * rewrite nth_error_app2 by lia. rewrite Hr, nth_error_skipn.
        destruct (Nat.le_gt_cases size (n - lo)) as [Hfull|Hlast].
        -- destruct (Nat.ltb_spec j (lo + size)); [lia|]. f_equal. lia.
        -- assert (Hn : (n <= j)%nat) by lia.
           transitivity (@None pyval).
           ++ apply nth_error_None. lia.
           ++ destruct (j <? lo + size)%nat; symmetry; apply nth_error_None;
                rewrite ?length_map; lia.
    + rewrite nth_error_app1 by lia.
      rewrite nth_error_firstn.
      destruct (Nat.ltb_spec j lo); [reflexivity|lia].
Qed.
End Slices.

(** ** What the pool computes for [starmap] *)

Lemma starmap_async_nonempty sched p fn args chunksize t :
  args <> [] ->
  starmap_async sched p fn args chunksize t =
  (Ok (fold_left (report fn) (completions sched args chunksize)
         (MapResult_init (Z.to_nat chunksize) (length args))),
   t ++ flat_map (fun c => map Invoke (attempted fn (snd c)))
          (completions sched args chunksize)).
Proof.
  intros Hne. unfold starmap_async.
  destruct args as [|a args']; [congruence|]. cbn [length Nat.eqb].
  apply foldM_pure. intros mr [i batch] t0.
  erewrite bind_ok by apply worker_starmapstar. reflexivity.
Qed.

Lemma starmap_async_empty sched p fn chunksize t :
  starmap_async sched p fn [] chunksize t = (Ok (MapResult_init 0 0), t).
Proof.
  unfold starmap_async. cbn [length Nat.eqb]. simp get_tasks.
  change (enumerate []) with (@nil (nat * list workitem)).
  rewrite (Permutation_nil (Permutation_sym (completion_order_perm sched _ []))).
  reflexivity.
Qed.

Lemma completions_entry sched args n i b :
  In (i, b) (completions sched args (Z.of_nat (S n))) <->
  b = batch_at args (S n) i /\ (i * S n < length args)%nat.
Proof.
  unfold completions. rewrite Nat2Z.id. split.
  - intros H. apply (Permutation_in _ (completion_order_perm sched _ _)) in H.
    apply In_enumerate in H. rewrite nth_error_get_tasks in H.
    destruct (Nat.ltb_spec (i * S n) (length args)); [|discriminate].
    split; [congruence|assumption].
  - intros [-> Hi].
    apply (Permutation_in _ (Permutation_sym (completion_order_perm sched _ _))).
    apply In_enumerate. rewrite nth_error_get_tasks.
    destruct (Nat.ltb_spec (i * S n) (length args)); [reflexivity|lia].
Qed.

Lemma completions_items sched args n :
  Permutation (concat (map snd (completions sched args (Z.of_nat (S n))))) args.
Proof.
  unfold completions. rewrite Nat2Z.id.
  rewrite <- (get_tasks_concat args n) at 2.
  rewrite <- (map_snd_enumerate (get_tasks args (S n))) at 2.
  rewrite <- !flat_map_concat_map.
  apply Permutation_flat_map, completion_order_perm.
Qed.

Section AllSucceed.
Variables (fn : pyfun) (f : workitem -> pyval) (args : list workitem).
Variable size : nat.
Hypothesis fn_ok : forall item, In item args -> fn item = Ok (f item).

Lemma fold_report_ok (L : list (nat * list workitem)) :
  (forall i b, In (i, b) L ->
               b = batch_at args size i /\ (i * size < length args)%nat) ->
  forall (v : list pyval) (Pre : nat -> Prop),
    length v = length args ->
    (forall j, Pre j -> nth_error v j = nth_error (map f args) j) ->
    exists v',
      fold_left (report fn) L {| mr_value := Ok v; mr_chunksize := size |} =
        {| mr_value := Ok v'; mr_chunksize := size |} /\
      length v' = length args /\
      forall j,
        Pre j \/
        (exists i b, In (i, b) L /\ (i * size <= j < i * size + size)%nat) ->
        nth_error v' j = nth_error (map f args) j.
Proof.
  induction L as [|[i b] L IH]; intros HL v Pre Hlen Hpre.
  - exists v. repeat split; trivial.
    intros j [Hj|(i & b & [] & _)]. now apply Hpre.
  - destruct (HL i b (or_introl eq_refl)) as [Hb Hi].
    subst b.
    assert (Hrun : run_batch fn (batch_at args size i) =
                   Ok (map f (batch_at args size i))).
    { apply run_batch_all_ok. intros item Hin. apply fn_ok.
      eapply In_batch_at; eassumption. }
    cbn [fold_left]. unfold report at 2, MapResult_set.
    cbn [fst snd mr_value mr_chunksize]. rewrite Hrun.
    destruct (slice_assign_batch f args size v i Hlen Hi) as [Hlen1 Hnth1].
    set (v1 := slice_assign v (i * size) ((i + 1) * size)
                 (map f (batch_at args size i))) in *.
    destruct (IH (fun i' b' H => HL i' b' (or_intror H)) v1
                (fun j => Pre j \/ (i * size <= j < i * size + size)%nat)
                Hlen1) as (v' & Hfold & Hlen' & Hnth').
    + intros j Hj. rewrite Hnth1.
      destruct (Nat.leb_spec (i * size) j);
        destruct (Nat.ltb_spec j (i * size + size)); cbn [andb];
        try reflexivity; destruct Hj as [Hj|Hj]; try lia; now apply Hpre.
    + exists v'. repeat split; trivial.
      intros j [Hj|(i' & b' & [Heq|Hin] & Hrange)]; apply Hnth'.
      * now left; left.
      * injection Heq as <- <-. now left; right.
      * right. now exists i', b'.
Qed.
End AllSucceed.

Lemma attempted_all_ok fn batch :
  (forall item, In item batch -> exists v, fn item = Ok v) ->
  attempted fn batch = batch.
Proof.
  induction batch as [|item rest IH]; intros Hok; simpl; [reflexivity|].
  destruct (Hok item (or_introl eq_refl)) as [v ->].
  rewrite IH by (intros; apply Hok; now right). reflexivity.
Qed.

Lemma invocations_all_ok fn (L : list (nat * list workitem)) :
  (forall c item, In c L -> In item (snd c) -> exists v, fn item = Ok v) ->
  flat_map (fun c => map Invoke (attempted fn (snd c))) L =
  map Invoke (concat (map snd L)).
Proof.
  induction L as [|c L IH]; intros Hok; simpl; [reflexivity|].
  rewrite map_app, IH by (intros c' item H; apply Hok; now right).
  rewrite attempted_all_ok by (intros item H; eapply Hok; [now left|exact H]).
  reflexivity.
Qed.

(** A positive chunk size, as the successor it is. *)
Lemma chunksize_succ (chunksize : Z) :
  1 <= chunksize -> exists n, chunksize = Z.of_nat (S n).
Proof.
  intros H. exists (Z.to_nat chunksize - 1)%nat. lia.
Qed.

(** With no failing item, [starmap] returns the results in input order,
    whatever the order in which the batches finish; every item is called
    once. *)
Lemma starmap_all_ok sched p fn (f : workitem -> pyval) args chunksize t :
  1 <= chunksize ->
  (forall item, In item args -> fn item = Ok (f item)) ->
  exists calls,
    Permutation calls args /\
    starmap sched p fn args chunksize t = (Ok (map f args), t ++ map Invoke calls).
Proof.
  intros Hcs Hok. unfold starmap.
  destruct args as [|a args'].
  - exists []. split; [constructor|].
    erewrite bind_ok by apply starmap_async_empty.
    now rewrite app_nil_r.
  - set (args := a :: args') in *.
    destruct (chunksize_succ _ Hcs) as [n ->].
    erewrite bind_ok by (apply starmap_async_nonempty; discriminate).
    exists (concat (map snd (completions sched args (Z.of_nat (S n))))).
    split; [apply completions_items|].
    unfold MapResult_init. rewrite Nat2Z.id.
    destruct (fold_report_ok fn f args (S n) Hok
                (completions sched args (Z.of_nat (S n)))
                (fun i b H => proj1 (completions_entry sched args n i b) H)
                (repeat PyNone (length args)) (fun _ => False)
                (repeat_length _ _) (fun j (H : False) => match H with end))
      as (v' & -> & Hlen & Hnth).
    unfold MapResult_get, of_outcome. cbn [mr_value].
    rewrite invocations_all_ok.
    + f_equal. f_equal. apply nth_error_ext. intros j.
      destruct (Nat.lt_ge_cases j (length args)) as [Hj|Hj].
      * apply Hnth. right.
        exists (j / S n)%nat, (batch_at args (S n) (j / S n)).
        pose proof (Nat.div_mod_eq j (S n)) as Hdm.
        pose proof (Nat.mod_upper_bound j (S n) ltac:(lia)) as Hmod.
        split; [|nia].
        apply completions_entry. split; [reflexivity|nia].
      * transitivity (@None pyval); [|symmetry];
          apply nth_error_None; rewrite ?length_map; lia.
    + intros [i b] item Hc Hin. cbn [snd] in Hin.
      apply completions_entry in Hc as [-> _].
      exists (f item). apply Hok. eapply In_batch_at; eassumption.
Qed.

(** ** A failing batch *)

Lemma first_failure_app fn l1 l2 :
  first_failure fn (l1 ++ l2) =
  match first_failure fn l1 with
  | Some e => Some e
  | None => first_failure fn l2
  end.
Proof.
  induction l1 as [|item l1 IH]; simpl; [reflexivity|].
  destruct (fn item); [exact IH|reflexivity].
Qed.

Lemma run_batch_first_failure fn batch :
  match run_batch fn batch with
  | Ok _ => first_failure fn batch = None
  | Raise e => first_failure fn batch = Some e
  end.
Proof.
  induction batch as [|item rest IH]; simpl; [reflexivity|].
  destruct (fn item); [|reflexivity].
  destruct (run_batch fn rest); exact IH.
Qed.

Lemma first_failure_In fn l e :
  first_failure fn l = Some e -> exists item, In item l /\ fn item = Raise e.
Proof.
  induction l as [|item l IH]; simpl; [discriminate|].
  destruct (fn item) as [v|e'] eqn:E.
  - intros H. destruct (IH H) as (x & Hx & Hfx). exists x. auto.
  - intros [= ->]. exists item. auto.
Qed.

Lemma first_failure_exists fn l item e0 :
  In item l -> fn item = Raise e0 -> exists e, first_failure fn l = Some e.
Proof.
  induction l as [|x l IH]; simpl; [tauto|].
  intros [->|Hin] Hraise.
  - rewrite Hraise. eauto.
  - destruct (fn x); eauto.
Qed.

Lemma fold_report_raised fn L mr e :
  mr_value mr = Raise e -> fold_left (report fn) L mr = mr.
Proof.
  revert mr. induction L as [|c L IH]; intros mr H; simpl; [reflexivity|].
  assert (Hstep : report fn mr c = mr).
  { unfold report, MapResult_set. now rewrite H. }
  rewrite Hstep. now apply IH.
Qed.

(** The exception that [get] re-raises is that of the first failing item in
    the order in which the batches finish. *)
Lemma fold_report_first_failure fn L :
  forall mr v e,
    mr_value mr = Ok v ->
    first_failure fn (concat (map snd L)) = Some e ->
    mr_value (fold_left (report fn) L mr) = Raise e.
Proof.
  induction L as [|[i b] L IH]; intros mr v e Hv Hff; simpl in *.
  - discriminate.
  - rewrite first_failure_app in Hff.
    pose proof (run_batch_first_failure fn b) as Hb.
    unfold report at 2, MapResult_set. cbn [fst snd]. rewrite Hv.
    destruct (run_batch fn b) as [vs|e'].
    + rewrite Hb in Hff. eapply IH; [reflexivity|exact Hff].
    + rewrite Hb in Hff. injection Hff as ->.
      now rewrite (fold_report_raised fn L _ e).
Qed.

Lemma starmap_some_fail sched p fn args chunksize t item e0 :
  1 <= chunksize -> In item args -> fn item = Raise e0 ->
  exists e,
    first_failure fn (concat (map snd (completions sched args chunksize))) = Some e /\
    fst (starmap sched p fn args chunksize t) = Raise e.
Proof.
  intros Hcs Hin Hraise.
  destruct (chunksize_succ _ Hcs) as [n ->].
  assert (Hin' : In item (concat (map snd (completions sched args (Z.of_nat (S n)))))).
  { eapply Permutation_in; [apply Permutation_sym, completions_items|exact Hin]. }
  destruct (first_failure_exists fn _ item e0 Hin' Hraise) as [e He].
  exists e. split; [exact He|].
  unfold starmap.
  erewrite bind_ok
    by (apply starmap_async_nonempty; intros ->; contradiction).
  unfold MapResult_get, of_outcome. cbn [fst].
  eapply fold_report_first_failure; [reflexivity|exact He].
Qed.

(** ** Asynchronous calls and the collection loop *)

Lemma mapM_apply_async p fn args t :
  mapM (fun arg => apply_async p fn arg) args t =
  (Ok (map fn args), t ++ map Invoke args).
Proof.
  revert t. induction args as [|a args IH]; intros t; simpl.
  - unfold ret. now rewrite app_nil_r.
  - unfold bind at 1, apply_async at 1, worker, try_, invoke, bind, emit,
      of_outcome. simpl.
    rewrite IH. rewrite <- app_assoc. reflexivity.
Qed.

Lemma collect_eval verbose rs results t :
  collect verbose rs results t =
  (Ok (results ++ returned rs), t ++ diagnostics verbose rs).
Proof.
  revert results t. induction rs as [|[v|e] rs IH]; intros results t; simpl.
  - unfold ret. now rewrite !app_nil_r.
  - unfold bind, try_, ApplyResult_get, of_outcome. rewrite IH.
    now rewrite <- app_assoc.
  - unfold bind at 1, try_, ApplyResult_get, of_outcome.
    destruct verbose.
    + unfold bind, print_traceback, bind, emit. rewrite IH.
      now rewrite <- !app_assoc.
    + unfold bind, ret. rewrite IH. reflexivity.
Qed.

Lemma returned_map fn args : returned (map fn args) = successes fn args.
Proof.
  induction args as [|a args IH]; simpl; [reflexivity|].
  destruct (fn a); now rewrite IH.
Qed.

Lemma successes_filter fn args :
  map Ok (successes fn args) = filter is_Ok (map fn args).
Proof.
  induction args as [|a args IH]; simpl; [reflexivity|].
  destruct (fn a); simpl; now rewrite IH.
Qed.

Lemma successes_all_ok fn (f : workitem -> pyval) args :
  (forall item, In item args -> fn item = Ok (f item)) ->
  successes fn args = map f args.
Proof.
  induction args as [|a args IH]; intros Hok; simpl; [reflexivity|].
  rewrite (Hok a) by (now left).
  rewrite IH by (intros; apply Hok; now right). reflexivity.
Qed.

Lemma successes_all_fail fn args :
  (forall item, In item args -> exists e, fn item = Raise e) ->
  successes fn args = [].
Proof.
  induction args as [|a args IH]; intros Hfail; simpl; [reflexivity|].
  destruct (Hfail a (or_introl eq_refl)) as [e ->].
  apply IH. intros; apply Hfail; now right.
Qed.

(** ** Constructing and leaving the pool *)

Lemma py_is_class_object c : py_is (py_type (ClassObj c)) (Ty_class Pool) = false.
Proof. reflexivity. Qed.

Lemma call_class_ok c processes t :
  1 <= processes ->
  call_pool_type (ClassObj c) processes None t =
  (Ok (the_pool c processes None), t ++ [PoolStart c processes None]).
Proof.
  intros H. unfold call_pool_type, Pool_init.
  destruct (Z.ltb_spec processes 1); [lia|].
  destruct c; reflexivity.
Qed.

Lemma call_class_too_few c processes kw t :
  processes <= 0 ->
  (c = ThreadPool -> kw = None) ->
  call_pool_type (ClassObj c) processes kw t =
  (Raise (ValueError "Number of processes must be at least 1"), t).
Proof.
  intros H Hkw. unfold call_pool_type, Pool_init.
  destruct (Z.ltb_spec processes 1); [|lia].
  destruct c; try reflexivity. now rewrite Hkw.
Qed.

Lemma with_pool_eval {A} (ctor : M pool) (body : pool -> M A) t p t1 r t2 :
  ctor t = (Ok p, t1) -> body p t1 = (r, t2) ->
  with_pool ctor body t = (r, t2 ++ [PoolTerminate]).
Proof.
  intros Hc Hb. unfold with_pool.
  erewrite bind_ok by exact Hc.
  unfold bind, try_, emit, of_outcome. now rewrite Hb.
Qed.

Lemma with_pool_ctor_raises {A} (ctor : M pool) (body : pool -> M A) t e t1 :
  ctor t = (Raise e, t1) -> with_pool ctor body t = (Raise e, t1).
Proof. intros Hc. unfold with_pool. now apply bind_raise. Qed.

Lemma bind_ret_r {A} (m : M A) t : bind m ret t = m t.
Proof. unfold bind, ret. destruct (m t) as [[a|e] t']; reflexivity. Qed.

(** The fail-fast dispatch on a pool class: the pool is built by
    [pool_type(processes)], the work is one [starmap], the pool is left. *)
Lemma multithread_on_class sched fn args c processes maxtasksperchild chunksize t :
  1 <= processes ->
  multithread sched fn args (ClassObj c) processes maxtasksperchild chunksize t =
  (fst (starmap sched (the_pool c processes None) fn args chunksize
          (t ++ [PoolStart c processes None])),
   snd (starmap sched (the_pool c processes None) fn args chunksize
          (t ++ [PoolStart c processes None])) ++ [PoolTerminate]).
Proof.
  intros Hp. unfold multithread. rewrite py_is_class_object.
  eapply with_pool_eval; [now apply call_class_ok|].
  rewrite bind_ret_r. apply surjective_pairing.
Qed.

(** The failsafe dispatch on a pool class. *)
Lemma multithread_failsafe_on_class sched fn args c processes chunksize verbose t :
  1 <= processes ->
  multithread_failsafe sched fn args (ClassObj c) processes chunksize verbose t =
  (Ok (successes fn args),
   t ++ [PoolStart c processes None] ++ map Invoke args ++
     diagnostics verbose (map fn args) ++ [PoolTerminate]).
Proof.
  intros Hp. unfold multithread_failsafe. rewrite py_is_class_object.
  erewrite with_pool_eval; [|now apply call_class_ok|].
  2:{ rewrite bind_ret_r.
      erewrite bind_ok by apply mapM_apply_async.
      unfold py_iter. erewrite bind_ok by reflexivity.
      rewrite collect_eval, returned_map. reflexivity. }
  cbn [app]. now rewrite <- !app_assoc.
Qed.

(** * Properties of the dispatch functions *)

Lemma map_Ok_inj {A} (l1 l2 : list A) : map Ok l1 = map Ok l2 -> l1 = l2.
Proof.
  revert l2. induction l1 as [|a l1 IH]; intros [|b l2] H; simpl in H;
    try discriminate; [reflexivity|].
  injection H as -> H. f_equal. now apply IH.
Qed.

Lemma value_of_ok fn args :
  (forall item, In item args -> exists v, fn item = Ok v) ->
  forall item, In item args -> fn item = Ok (value_of fn item).
Proof.
  intros Hok item Hin. unfold value_of.
  destruct (Hok item Hin) as [v ->]. reflexivity.
Qed.

Lemma map_value_of fn args :
  (forall item, In item args -> exists v, fn item = Ok v) ->
  map Ok (map (value_of fn) args) = map fn args.
Proof.
  intros Hok. rewrite map_map. apply map_ext_in. intros item Hin.
  symmetry. now apply value_of_ok with (args := args).
Qed.

(** On a pool class, the fail-fast dispatch builds its pool without the
    [maxtasksperchild] keyword, whichever class it is. *)
Lemma multithread_maxtasksperchild_not_forwarded
    sched fn args c processes maxtasksperchild chunksize t :
  1 <= processes ->
  exists rest,
    snd (multithread sched fn args (ClassObj c) processes maxtasksperchild
           chunksize t) = t ++ PoolStart c processes None :: rest.
Proof.
  intros Hp. rewrite multithread_on_class by assumption. cbn [snd].
  unfold starmap.
  destruct args as [|a args'].
  - erewrite bind_ok by apply starmap_async_empty.
    exists [PoolTerminate]. cbn. now rewrite <- app_assoc.
  - erewrite bind_ok by (apply starmap_async_nonempty; discriminate).
    cbn [MapResult_get of_outcome snd].
    eexists. rewrite <- !app_assoc. reflexivity.
Qed.

(** C1 (the code misses the claim): [multithread(square, [[3]], pool_type=Pool,
    processes=2, maxtasksperchild=5, chunksize=1)] builds its process pool as
    [Pool(2)]: the recycling threshold 5 does not reach the constructor,
    because [type(pool_type) is Pool] is false for the class [Pool] itself.
    With [ThreadPool] the keyword is not passed either. *)
Theorem multithread_process_pool_without_maxtasksperchild :
  multithread fifo square [[PyInt 3]] (ClassObj Pool) 2 5 1 [] =
    (Ok [PyInt 9], [PoolStart Pool 2 None; Invoke [PyInt 3]; PoolTerminate]) /\
  multithread fifo square [[PyInt 3]] (ClassObj ThreadPool) 2 5 1 [] =
    (Ok [PyInt 9], [PoolStart ThreadPool 2 None; Invoke [PyInt 3]; PoolTerminate])
  /\ py_is (py_type (ClassObj Pool)) (Ty_class Pool) = false.
Proof. repeat split; reflexivity. Qed.

(** The methods [multithread] and [safe_multithread] of the deprecated class
    are the free functions. *)
Lemma method_multithread_same sched self fn args pool_type processes
    maxtasksperchild chunksize :
  jwmultithreaded.multithread sched self fn args pool_type processes
    maxtasksperchild chunksize =
  multithread sched fn args pool_type processes maxtasksperchild chunksize.
Proof. reflexivity. Qed.

Lemma method_safe_multithread_same sched self fn args processes chunksize :
  jwmultithreaded.safe_multithread sched self fn args processes chunksize =
  safe_multithread sched fn args processes chunksize.
Proof. reflexivity. Qed.

(** On a pool that can be built, the method [multithread_failsafe] raises
    [TypeError] whatever the work is. *)
Lemma method_multithread_failsafe_raises sched self fn args c processes
    maxtasksperchild chunksize verbose t :
  1 <= processes ->
  fst (jwmultithreaded.multithread_failsafe sched self fn args (ClassObj c)
         processes maxtasksperchild chunksize verbose t) =
  Raise (TypeError "'MapResult' object is not iterable").
Proof.
  intros Hp. unfold jwmultithreaded.multithread_failsafe.
  rewrite py_is_class_object.
  unfold with_pool. erewrite bind_ok by (now apply call_class_ok).
  unfold bind at 1, try_.
  rewrite bind_ret_r.
  set (t1 := t ++ [PoolStart c processes None]).
  assert (H : exists t2, forall k : list ApplyResult -> M (list pyval),
             bind (starmap_async sched (the_pool c processes None) fn args chunksize)
               (fun mr => bind (py_iter (PyMapResult mr)) k) t1 =
             (Raise (TypeError "'MapResult' object is not iterable"), t2)).
  { destruct args as [|a args'].
    - eexists. intros k. erewrite bind_ok by apply starmap_async_empty.
      reflexivity.
    - eexists. intros k.
      erewrite bind_ok by (apply starmap_async_nonempty; discriminate).
      reflexivity. }
  destruct H as [t2 H]. rewrite H. reflexivity.
Qed.

(** C2 (the code misses the claim): on [fn = square], [args = [[2]]],
    [pool_type = ThreadPool], [processes = 1], [chunksize = 1],
    [verbose = False] the method [multithread_failsafe] of the deprecated
    class raises [TypeError] (it iterates over the [MapResult] that
    [starmap_async] returns), while the free function of the same name
    returns [[4]]; the method [safe_multithread_failsafe] differs from its
    free function in the same way. *)
Theorem method_multithread_failsafe_differs :
  fst (jwmultithreaded.multithread_failsafe fifo jwmultithreaded.__init__
         square [[PyInt 2]] (ClassObj ThreadPool) 1 1 1 false []) =
    Raise (TypeError "'MapResult' object is not iterable") /\
  fst (multithread_failsafe fifo square [[PyInt 2]] (ClassObj ThreadPool)
         1 1 false []) = Ok [PyInt 4] /\
  fst (jwmultithreaded.safe_multithread_failsafe fifo jwmultithreaded.__init__
         square [[PyInt 2]] 1 false []) =
    Raise (TypeError "'MapResult' object is not iterable") /\
  fst (safe_multithread_failsafe fifo square [[PyInt 2]] 1 1 false []) =
    Ok [PyInt 4].
Proof. repeat split; reflexivity. Qed.

(** C3: when [fn] raises on no work item, the fail-fast dispatch
    [multithread] returns the list of [fn] applied to each unpacked work item,
    in input order, for every pool class, every positive worker count and
    chunk size, and every order in which the workers finish; in particular
    [multithread(square, [[1],[2],[3]])] returns [[1, 4, 9]]. *)
Theorem multithread_returns_results_in_input_order :
  (forall sched fn args c processes maxtasksperchild chunksize t,
     1 <= processes -> 1 <= chunksize ->
     (forall item, In item args -> exists v, fn item = Ok v) ->
     exists results,
       fst (multithread sched fn args (ClassObj c) processes maxtasksperchild
              chunksize t) = Ok results /\
       map Ok results = map fn args) /\
  (forall sched cpus t,
     1 <= cpus ->
     fst (multithread_call sched cpus square
            (only_args [[PyInt 1]; [PyInt 2]; [PyInt 3]]) t) =
     Ok [PyInt 1; PyInt 4; PyInt 9]).
Proof.
  assert (General : forall sched fn args c processes maxtasksperchild chunksize t,
     1 <= processes -> 1 <= chunksize ->
     (forall item, In item args -> exists v, fn item = Ok v) ->
     exists results,
       fst (multithread sched fn args (ClassObj c) processes maxtasksperchild
              chunksize t) = Ok results /\
       map Ok results = map fn args).
  { intros sched fn args c processes m chunksize t Hp Hcs Hok.
    exists (map (value_of fn) args). split; [|now apply map_value_of].
    rewrite multithread_on_class by assumption. cbn [fst].
    destruct (starmap_all_ok sched (the_pool c processes None) fn
                (value_of fn) args chunksize
                (t ++ [PoolStart c processes None]) Hcs
                (value_of_ok fn args Hok)) as (calls & _ & ->).
    reflexivity. }
  split; [exact General|].
  intros sched cpus t Hcpus.
  unfold multithread_call, only_args. cbn [given kw_verbose or_default
    kw_args kw_pool_type kw_processes kw_maxtasksperchild kw_chunksize].
  destruct (General sched square [[PyInt 1]; [PyInt 2]; [PyInt 3]] Pool
              cpus 1 1 t Hcpus ltac:(lia)) as (results & -> & Hres).
  - intros item [<-|[<-|[<-|[]]]]; eexists; reflexivity.
  - f_equal. apply map_Ok_inj. exact Hres.
Qed.

Lemma multithread_returns_results_in_input_order_witness :
  exists results,
    fst (multithread lifo square [[PyInt 1]; [PyInt 2]; [PyInt 3]]
           (ClassObj Pool) 4 1 2 []) = Ok results /\
    map Ok results = map square [[PyInt 1]; [PyInt 2]; [PyInt 3]].
Proof.
  apply (proj1 multithread_returns_results_in_input_order); try lia.
  intros item [<-|[<-|[<-|[]]]]; eexists; reflexivity.
Defined.

(** C4: the failsafe dispatch [multithread_failsafe] returns exactly the
    results of the items on which [fn] returns, in input order, and nothing
    in the place of an item on which [fn] raises; in particular
    [multithread_failsafe(reciprocal, [[1],[0],[2]], verbose=False)] returns
    [[1.0, 0.5]]. *)
Theorem multithread_failsafe_keeps_successes_in_order :
  (forall sched fn args c processes chunksize verbose t,
     1 <= processes ->
     exists results,
       fst (multithread_failsafe sched fn args (ClassObj c) processes
              chunksize verbose t) = Ok results /\
       map Ok results = filter is_Ok (map fn args)) /\
  (forall sched cpus t,
     1 <= cpus ->
     fst (multithread_failsafe_call sched cpus reciprocal
            (args_and_verbose [[PyInt 1]; [PyInt 0]; [PyInt 2]] false) t) =
     Ok [PyFloat 1; PyFloat 0.5]).
Proof.
  split.
  - intros sched fn args c processes chunksize verbose t Hp.
    exists (successes fn args). split; [|apply successes_filter].
    now rewrite multithread_failsafe_on_class.
  - intros sched cpus t Hcpus.
    unfold multithread_failsafe_call, args_and_verbose.
    cbn [given kw_verbose or_default kw_args kw_pool_type kw_processes
         kw_maxtasksperchild kw_chunksize].
    now rewrite multithread_failsafe_on_class.
Qed.

Lemma multithread_failsafe_keeps_successes_in_order_witness :
  exists results,
    fst (multithread_failsafe fifo reciprocal
           [[PyInt 1]; [PyInt 0]; [PyInt 2]] (ClassObj Pool) 2 1 true []) =
      Ok results /\
    map Ok results =
      filter is_Ok (map reciprocal [[PyInt 1]; [PyInt 0]; [PyInt 2]]).
Proof.
  apply (proj1 multithread_failsafe_keeps_successes_in_order). lia.
Defined.


(** When the failsafe dispatch does raise, it is the construction of the pool
    that failed: no pool was started and [fn] was not called. *)
Lemma multithread_failsafe_raise_is_construction sched fn args pool_type
    processes chunksize verbose t e t' :
  multithread_failsafe sched fn args pool_type processes chunksize verbose t =
    (Raise e, t') ->
  t' = t /\ call_pool_type pool_type processes None t = (Raise e, t).
Proof.
  destruct pool_type as [c|c].
  - destruct (Z.le_gt_cases 1 processes) as [Hp|Hp].
    + rewrite multithread_failsafe_on_class by assumption. discriminate.
    + unfold multithread_failsafe. rewrite py_is_class_object.
      rewrite (call_class_too_few c processes None t) by (auto; lia).
      erewrite with_pool_ctor_raises
        by (apply call_class_too_few; auto; lia).
      intros [= <- <-]. auto.
  - unfold multithread_failsafe.
    assert (Hc : call_pool_type (InstanceOf c) processes None t =
                 (Raise (TypeError ("'" ++ class_name c ++
                                    "' object is not callable")), t))
      by reflexivity.
    rewrite Hc.
    destruct (py_is (py_type (InstanceOf c)) (Ty_class Pool));
      erewrite with_pool_ctor_raises by exact Hc; intros [= <- <-]; auto.
Qed.

(** C5: the failsafe dispatches [multithread_failsafe] and
    [safe_multithread_failsafe] never hand an exception of [fn] to the
    caller: given a pool they can build they return a list, which is empty
    when [fn] raises on every item; and an exception that does leave them
    comes from building the pool, before [fn] is called at all. *)
Theorem failsafe_dispatch_never_raises :
  forall sched fn args processes chunksize verbose t,
    (1 <= processes ->
     exists results results',
       (forall c,
          fst (multithread_failsafe sched fn args (ClassObj c) processes
                 chunksize verbose t) = Ok results) /\
       fst (safe_multithread_failsafe sched fn args processes chunksize
              verbose t) = Ok results' /\
       ((forall item, In item args -> exists e, fn item = Raise e) ->
        results = [] /\ results' = [])) /\
    (forall pool_type e t',
       multithread_failsafe sched fn args pool_type processes chunksize
         verbose t = (Raise e, t') -> t' = t) /\
    (forall e t',
       safe_multithread_failsafe sched fn args processes chunksize
         verbose t = (Raise e, t') -> t' = t).
Proof.
  intros sched fn args processes chunksize verbose t. repeat split.
  - intros Hp. exists (successes fn args), (successes fn args).
    unfold safe_multithread_failsafe.
    rewrite !multithread_failsafe_on_class by assumption.
    repeat split; trivial; try (now apply successes_all_fail).
    intros c. now rewrite multithread_failsafe_on_class.
  - intros pool_type e t' H.
    now apply multithread_failsafe_raise_is_construction in H.
  - intros e t' H. unfold safe_multithread_failsafe in H.
    now apply multithread_failsafe_raise_is_construction in H.
Qed.

Lemma failsafe_dispatch_never_raises_witness :
  exists results results',
    (forall c,
       fst (multithread_failsafe lifo reciprocal [[PyInt 0]; [PyStr "x"]]
              (ClassObj c) 3 1 true []) = Ok results) /\
    fst (safe_multithread_failsafe lifo reciprocal [[PyInt 0]; [PyStr "x"]]
           3 1 true []) = Ok results' /\
    ((forall item, In item [[PyInt 0]; [PyStr "x"]] ->
                   exists e, reciprocal item = Raise e) ->
     results = [] /\ results' = []).
Proof.
  apply (proj1 (failsafe_dispatch_never_raises lifo reciprocal
                  [[PyInt 0]; [PyStr "x"]] 3 1 true [])). lia.
Defined.

(** C6: when [fn] raises on at least one work item, the fail-fast dispatch
    [multithread] raises and returns no list; the exception is, unchanged,
    the one [fn] raised on the first failing item in the order in which the
    batches finish, which is the first failing item of the input when the
    batches finish in submission order. *)
Theorem multithread_raises_first_error :
  forall sched fn args c processes maxtasksperchild chunksize t item e0,
    1 <= processes -> 1 <= chunksize ->
    In item args -> fn item = Raise e0 ->
    exists e,
      fst (multithread sched fn args (ClassObj c) processes maxtasksperchild
             chunksize t) = Raise e /\
      first_failure fn
        (concat (map snd (completions sched args chunksize))) = Some e /\
      (exists failing, In failing args /\ fn failing = Raise e) /\
      (completions sched args chunksize =
         enumerate (get_tasks args (Z.to_nat chunksize)) ->
       first_failure fn args = Some e).
Proof.
  intros sched fn args c processes m chunksize t item e0 Hp Hcs Hin Hraise.
  destruct (starmap_some_fail sched (the_pool c processes None) fn args
              chunksize (t ++ [PoolStart c processes None]) item e0
              Hcs Hin Hraise) as (e & Hfirst & Hres).
  exists e. rewrite multithread_on_class by assumption. cbn [fst].
  repeat split; trivial.
  - destruct (first_failure_In _ _ _ Hfirst) as (failing & Hf & He).
    exists failing. split; [|exact He].
    destruct (chunksize_succ _ Hcs) as [n ->].
    eapply Permutation_in; [apply completions_items|exact Hf].
  - intros Hfifo. rewrite Hfifo in Hfirst.
    destruct (chunksize_succ _ Hcs) as [n ->].
    rewrite Nat2Z.id, map_snd_enumerate, get_tasks_concat in Hfirst.
    exact Hfirst.
Qed.

Lemma multithread_raises_first_error_witness :
  exists e,
    fst (multithread lifo reciprocal [[PyInt 4]; [PyInt 0]; [PyStr "x"]]
           (ClassObj Pool) 2 1 1 []) = Raise e /\
    first_failure reciprocal
      (concat (map snd (completions lifo
                          [[PyInt 4]; [PyInt 0]; [PyStr "x"]] 1))) = Some e /\
    (exists failing,
       In failing [[PyInt 4]; [PyInt 0]; [PyStr "x"]] /\
       reciprocal failing = Raise e) /\
    (completions lifo [[PyInt 4]; [PyInt 0]; [PyStr "x"]] 1 =
       enumerate (get_tasks [[PyInt 4]; [PyInt 0]; [PyStr "x"]] (Z.to_nat 1)) ->
     first_failure reciprocal [[PyInt 4]; [PyInt 0]; [PyStr "x"]] = Some e).
Proof.
  apply (multithread_raises_first_error lifo reciprocal
           [[PyInt 4]; [PyInt 0]; [PyStr "x"]] Pool 2 1 1 [] [PyInt 0]
           (ZeroDivisionError "division by zero")).
  - lia.
  - lia.
  - simpl. auto.
  - reflexivity.
Defined.

(** C7: when [fn] raises on no work item, the fail-fast dispatch
    [multithread] and the failsafe dispatch [multithread_failsafe] return the
    same list, and that list is [fn] applied to the items in input order
    (the input need not even be non-empty). *)
Theorem failfast_and_failsafe_agree :
  forall sched fn args c c' processes processes' maxtasksperchild chunksize
         chunksize' verbose t t',
    1 <= processes -> 1 <= processes' -> 1 <= chunksize ->
    (forall item, In item args -> exists v, fn item = Ok v) ->
    exists results,
      fst (multithread sched fn args (ClassObj c) processes maxtasksperchild
             chunksize t) = Ok results /\
      fst (multithread_failsafe sched fn args (ClassObj c') processes'
             chunksize' verbose t') = Ok results /\
      map Ok results = map fn args.
Proof.
  intros sched fn args c c' processes processes' m chunksize chunksize'
    verbose t t' Hp Hp' Hcs Hok.
  exists (map (value_of fn) args).
  rewrite multithread_on_class, multithread_failsafe_on_class by assumption.
  cbn [fst].
  destruct (starmap_all_ok sched (the_pool c processes None) fn
              (value_of fn) args chunksize
              (t ++ [PoolStart c processes None]) Hcs
              (value_of_ok fn args Hok)) as (calls & _ & ->).
  repeat split.
  - f_equal. apply successes_all_ok. now apply value_of_ok.
  - now apply map_value_of.
Qed.

Lemma failfast_and_failsafe_agree_witness :
  exists results,
    fst (multithread lifo square [[PyInt 2]; [PyInt 5]; [PyInt 7]]
           (ClassObj Pool) 2 1 2 []) = Ok results /\
    fst (multithread_failsafe lifo square [[PyInt 2]; [PyInt 5]; [PyInt 7]]
           (ClassObj ThreadPool) 3 4 true []) = Ok results /\
    map Ok results = map square [[PyInt 2]; [PyInt 5]; [PyInt 7]].
Proof.
  apply failfast_and_failsafe_agree; try lia.
  intros item [<-|[<-|[<-|[]]]]; eexists; reflexivity.
Defined.

(** C8: in all four dispatch functions a worker count of zero or less raises
    the constructor's [ValueError] (the spec's ConfigurationError) and leaves
    the trace as it was: no pool was started, no worker spawned, [fn] not
    called. *)
Theorem nonpositive_worker_count_raises_before_spawning :
  forall sched fn args c processes maxtasksperchild chunksize verbose t,
    processes <= 0 ->
    let refused :=
      (@Raise (list pyval)
         (ValueError "Number of processes must be at least 1"), t) in
    multithread sched fn args (ClassObj c) processes maxtasksperchild
      chunksize t = refused /\
    safe_multithread sched fn args processes chunksize t = refused /\
    multithread_failsafe sched fn args (ClassObj c) processes chunksize
      verbose t = refused /\
    safe_multithread_failsafe sched fn args processes chunksize verbose t =
      refused.
Proof.
  intros sched fn args c processes m chunksize verbose t Hp refused.
  unfold safe_multithread, safe_multithread_failsafe, multithread,
    multithread_failsafe.
  rewrite !py_is_class_object.
  repeat split; apply with_pool_ctor_raises;
    apply call_class_too_few; auto.
Qed.

Lemma nonpositive_worker_count_raises_before_spawning_witness :
  multithread fifo square [[PyInt 1]] (ClassObj Pool) 0 1 1 [] =
    (Raise (ValueError "Number of processes must be at least 1"), []) /\
  safe_multithread fifo square [[PyInt 1]] 0 1 [] =
    (Raise (ValueError "Number of processes must be at least 1"), []) /\
  multithread_failsafe fifo square [[PyInt 1]] (ClassObj Pool) 0 1 true [] =
    (Raise (ValueError "Number of processes must be at least 1"), []) /\
  safe_multithread_failsafe fifo square [[PyInt 1]] 0 1 true [] =
    (Raise (ValueError "Number of processes must be at least 1"), []).
Proof.
  apply (nonpositive_worker_count_raises_before_spawning fifo square
           [[PyInt 1]] Pool 0 1 1 true []). lia.
Defined.

(** C9: the failsafe dispatch [multithread_failsafe] does the same, result
    and trace, for any two chunk sizes: [chunksize] is not used, and every
    work item is handed to [apply_async] on its own, so that each item is
    called, in submission order, also after an item that raises. *)
Theorem multithread_failsafe_ignores_chunksize :
  (forall sched fn args pool_type processes verbose chunksize chunksize' t,
     multithread_failsafe sched fn args pool_type processes chunksize verbose t =
     multithread_failsafe sched fn args pool_type processes chunksize' verbose t)
  /\
  (forall sched fn args c processes verbose chunksize t,
     1 <= processes ->
     snd (multithread_failsafe sched fn args (ClassObj c) processes chunksize
            verbose t) =
     t ++ [PoolStart c processes None] ++ map Invoke args ++
       diagnostics verbose (map fn args) ++ [PoolTerminate]).
Proof.
  split.
  - reflexivity.
  - intros sched fn args c processes verbose chunksize t Hp.
    now rewrite multithread_failsafe_on_class.
Qed.

Lemma multithread_failsafe_ignores_chunksize_witness :
  snd (multithread_failsafe lifo reciprocal [[PyInt 0]; [PyInt 2]]
         (ClassObj Pool) 2 64 false []) =
  [] ++ [PoolStart Pool 2 None] ++ map Invoke [[PyInt 0]; [PyInt 2]] ++
    diagnostics false (map reciprocal [[PyInt 0]; [PyInt 2]]) ++
    [PoolTerminate].
Proof.
  apply (proj2 multithread_failsafe_ignores_chunksize lifo reciprocal
           [[PyInt 0]; [PyInt 2]] Pool 2 false 64 []). lia.
Defined.

Lemma multithread_single_empty_item sched fn c processes maxtasksperchild
    chunksize v t :
  1 <= processes -> 1 <= chunksize -> fn [] = Ok v ->
  multithread sched fn [[]] (ClassObj c) processes maxtasksperchild chunksize t =
  (Ok [v], t ++ [PoolStart c processes None; Invoke []; PoolTerminate]).
Proof.
  intros Hp Hcs Hv. rewrite multithread_on_class by assumption.
  destruct (starmap_all_ok sched (the_pool c processes None) fn
              (fun _ => v) [[]] chunksize
              (t ++ [PoolStart c processes None]) Hcs)
    as (calls & Hperm & ->).
  - intros item [<-|[]]. exact Hv.
  - apply Permutation_sym, Permutation_length_1_inv in Hperm. subst calls.
    cbn [fst snd map]. now rewrite <- !app_assoc.
Qed.

Lemma multithread_failsafe_single_empty_item sched fn c processes chunksize
    verbose v t :
  1 <= processes -> fn [] = Ok v ->
  multithread_failsafe sched fn [[]] (ClassObj c) processes chunksize verbose t =
  (Ok [v], t ++ [PoolStart c processes None; Invoke []; PoolTerminate]).
Proof.
  intros Hp Hv. rewrite multithread_failsafe_on_class by assumption.
  cbn [successes map diagnostics]. now rewrite Hv.
Qed.

(** C10: a call that leaves [args] out runs on the default [[[]]], one
    empty work item: in each of the four dispatch functions [fn] is called
    exactly once, with no argument, and the result is the one-element list
    of what [fn()] returns. *)
Theorem omitted_args_call_fn_once_without_arguments :
  forall sched cpus fn processes chunksize v t,
    1 <= or_default processes cpus -> 1 <= or_default chunksize 1 ->
    fn [] = Ok v ->
    let kw := without_args processes chunksize in
    let p := or_default processes cpus in
    multithread_call sched cpus fn kw t =
      (Ok [v], t ++ [PoolStart Pool p None; Invoke []; PoolTerminate]) /\
    safe_multithread_call sched cpus fn kw t =
      (Ok [v], t ++ [PoolStart ThreadPool p None; Invoke []; PoolTerminate]) /\
    multithread_failsafe_call sched cpus fn kw t =
      (Ok [v], t ++ [PoolStart Pool p None; Invoke []; PoolTerminate]) /\
    safe_multithread_failsafe_call sched cpus fn kw t =
      (Ok [v], t ++ [PoolStart ThreadPool p None; Invoke []; PoolTerminate]).
Proof.
  intros sched cpus fn processes chunksize v t Hp Hcs Hv kw p.
  unfold multithread_call, safe_multithread_call, multithread_failsafe_call,
    safe_multithread_failsafe_call, safe_multithread,
    safe_multithread_failsafe.
  subst kw p. unfold without_args.
  cbn [given or_default kw_args kw_pool_type kw_processes
       kw_maxtasksperchild kw_chunksize kw_verbose].
  repeat split.
  - now apply multithread_single_empty_item.
  - now apply multithread_single_empty_item.
  - now apply multithread_failsafe_single_empty_item.
  - now apply multithread_failsafe_single_empty_item.
Qed.

Lemma omitted_args_call_fn_once_without_arguments_witness :
  multithread_call fifo 4 (fun _ => Ok (PyStr "done"))
      (without_args None None) [] =
    (Ok [PyStr "done"], [PoolStart Pool 4 None; Invoke []; PoolTerminate]) /\
  safe_multithread_call fifo 4 (fun _ => Ok (PyStr "done"))
      (without_args None None) [] =
    (Ok [PyStr "done"], [PoolStart ThreadPool 4 None; Invoke []; PoolTerminate]) /\
  multithread_failsafe_call fifo 4 (fun _ => Ok (PyStr "done"))
      (without_args None None) [] =
    (Ok [PyStr "done"], [PoolStart Pool 4 None; Invoke []; PoolTerminate]) /\
  safe_multithread_failsafe_call fifo 4 (fun _ => Ok (PyStr "done"))
      (without_args None None) [] =
    (Ok [PyStr "done"], [PoolStart ThreadPool 4 None; Invoke []; PoolTerminate]).
Proof.
  apply (omitted_args_call_fn_once_without_arguments fifo 4
           (fun _ => Ok (PyStr "done")) None None (PyStr "done") []).
  - simpl. lia.
  - simpl. lia.
  - reflexivity.
Defined.

(** * Further properties *)

(** ** Every exit path of the fail-fast dispatch *)

Lemma completions_no_batch sched args chunksize :
  args = [] \/ chunksize <= 0 -> completions sched args chunksize = [].
Proof.
  intros H. unfold completions.
  assert (E : get_tasks args (Z.to_nat chunksize) = []).
  { destruct H as [->|H].
    - now simp get_tasks.
    - replace (Z.to_nat chunksize) with 0%nat by lia.
      destruct args; now simp get_tasks. }
  rewrite E. change (enumerate []) with (@nil (nat * list workitem)).
  apply Permutation_nil, Permutation_sym, completion_order_perm.
Qed.

Lemma flat_map_map_Invoke {A} (g : A -> list workitem) (L : list A) :
  flat_map (fun c => map Invoke (g c)) L = map Invoke (flat_map g L).
Proof.
  induction L as [|c L IH]; simpl; [reflexivity|].
  now rewrite map_app, IH.
Qed.

(** The trace of a [starmap]: the calls of the batches, nothing else. *)
Lemma starmap_trace sched p fn args chunksize t :
  snd (starmap sched p fn args chunksize t) =
  t ++ map Invoke (calls_of sched fn args chunksize).
Proof.
  unfold starmap, calls_of. destruct args as [|a args'].
  - erewrite bind_ok by apply starmap_async_empty.
    rewrite completions_no_batch by auto. cbn. now rewrite app_nil_r.
  - erewrite bind_ok by (apply starmap_async_nonempty; discriminate).
    cbn [MapResult_get of_outcome snd]. now rewrite flat_map_map_Invoke.
Qed.

Lemma attempted_unattempted fn batch :
  attempted fn batch ++ unattempted fn batch = batch.
Proof.
  induction batch as [|item rest IH]; simpl; [reflexivity|].
  destruct (fn item); simpl; [now rewrite IH|reflexivity].
Qed.

Lemma unattempted_all_ok fn batch :
  (forall item, In item batch -> exists v, fn item = Ok v) ->
  unattempted fn batch = [].
Proof.
  induction batch as [|item rest IH]; intros Hok; simpl; [reflexivity|].
  destruct (Hok item (or_introl eq_refl)) as [v ->].
  apply IH. intros; apply Hok; now right.
Qed.

Lemma flat_map_app_perm {A B} (f g : A -> list B) (L : list A) :
  Permutation (flat_map f L ++ flat_map g L) (flat_map (fun x => f x ++ g x) L).
Proof.
  induction L as [|a L IH]; simpl; [constructor|].
  rewrite <- !app_assoc. apply Permutation_app_head.
  rewrite <- IH. rewrite !app_assoc. apply Permutation_app_tail.
  apply Permutation_app_comm.
Qed.

Lemma calls_and_skipped sched fn args n :
  Permutation (calls_of sched fn args (Z.of_nat (S n)) ++
               skipped_of sched fn args (Z.of_nat (S n))) args.
Proof.
  unfold calls_of, skipped_of.
  rewrite flat_map_app_perm.
  rewrite <- (completions_items sched args n) at 2.
  rewrite <- flat_map_concat_map.
  erewrite flat_map_ext; [reflexivity|].
  intros c. apply attempted_unattempted.
Qed.

Lemma flat_map_unattempted_all_ok fn (L : list (nat * list workitem)) :
  (forall c item, In c L -> In item (snd c) -> exists v, fn item = Ok v) ->
  flat_map (fun c => unattempted fn (snd c)) L = [].
Proof.
  induction L as [|c L IH]; intros Hok; simpl; [reflexivity|].
  rewrite unattempted_all_ok by (intros item H; eapply Hok; [now left|exact H]).
  apply IH. intros c' item H. apply Hok. now right.
Qed.

Lemma skipped_all_ok sched fn args n :
  (forall item, In item args -> exists v, fn item = Ok v) ->
  skipped_of sched fn args (Z.of_nat (S n)) = [].
Proof.
  intros Hok. apply flat_map_unattempted_all_ok.
  intros [i b] item Hc Hin. cbn [snd] in Hin.
  apply completions_entry in Hc as [-> _].
  apply Hok. eapply In_batch_at; eassumption.
Qed.

(** X1: what [multithread] does to the outside world, on every way out.
    Given an instance instead of a class, or a worker count below 1, it
    raises before anything is started.  Otherwise it starts one pool of the
    class, with [processes] workers and no [maxtasksperchild], lets the
    workers call [fn], and terminates the pool last, whether [starmap]
    returned or raised; [safe_multithread] does so with a [ThreadPool]. *)
Theorem multithread_scopes_its_pool :
  forall sched fn args pool_type processes maxtasksperchild chunksize t,
    match pool_type with
    | InstanceOf c =>
        multithread sched fn args pool_type processes maxtasksperchild
          chunksize t =
        (Raise (TypeError ("'" ++ class_name c ++ "' object is not callable")%string), t)
    | ClassObj c =>
        if processes <? 1
        then
          multithread sched fn args pool_type processes maxtasksperchild
            chunksize t =
          (Raise (ValueError "Number of processes must be at least 1"), t)
        else
          snd (multithread sched fn args pool_type processes maxtasksperchild
                 chunksize t) =
          t ++ PoolStart c processes None ::
            map Invoke (calls_of sched fn args chunksize) ++ [PoolTerminate]
    end /\
    (if processes <? 1
     then safe_multithread sched fn args processes chunksize t =
          (Raise (ValueError "Number of processes must be at least 1"), t)
     else snd (safe_multithread sched fn args processes chunksize t) =
          t ++ PoolStart ThreadPool processes None ::
            map Invoke (calls_of sched fn args chunksize) ++ [PoolTerminate]).
Proof.
  intros sched fn args pool_type processes m chunksize t.
  assert (Class : forall c m',
    if processes <? 1
    then multithread sched fn args (ClassObj c) processes m' chunksize t =
         (Raise (ValueError "Number of processes must be at least 1"), t)
    else snd (multithread sched fn args (ClassObj c) processes m' chunksize t) =
         t ++ PoolStart c processes None ::
           map Invoke (calls_of sched fn args chunksize) ++ [PoolTerminate]).
  { intros c m'. destruct (Z.ltb_spec processes 1) as [Hp|Hp].
    - unfold multithread. rewrite py_is_class_object.
      apply with_pool_ctor_raises, call_class_too_few; auto; lia.
    - rewrite multithread_on_class by assumption. cbn [snd].
      rewrite starmap_trace. now rewrite <- !app_assoc. }
  split.
  - destruct pool_type as [c|c]; [apply Class|].
    unfold multithread.
    destruct (py_is (py_type (InstanceOf c)) (Ty_class Pool));
      now apply with_pool_ctor_raises.
  - apply Class.
Qed.

(** X2: [fn] is called on work items of [args] only, on each at most once,
    and on each exactly once when it raises on none: the calls of a
    fail-fast dispatch together with the items it skips are a rearrangement
    of [args]. *)
Theorem multithread_calls_each_item_at_most_once :
  forall sched fn args c processes maxtasksperchild chunksize t,
    1 <= processes -> 1 <= chunksize ->
    exists calls skipped,
      snd (multithread sched fn args (ClassObj c) processes maxtasksperchild
             chunksize t) =
        t ++ PoolStart c processes None :: map Invoke calls ++ [PoolTerminate] /\
      Permutation (calls ++ skipped) args /\
      ((forall item, In item args -> exists v, fn item = Ok v) ->
       skipped = [] /\ Permutation calls args).
Proof.
  intros sched fn args c processes m chunksize t Hp Hcs.
  exists (calls_of sched fn args chunksize), (skipped_of sched fn args chunksize).
  destruct (chunksize_succ _ Hcs) as [n ->].
  split; [|split].
  - rewrite multithread_on_class by assumption. cbn [snd].
    rewrite starmap_trace. now rewrite <- !app_assoc.
  - apply calls_and_skipped.
  - intros Hok. pose proof (calls_and_skipped sched fn args n) as Hperm.
    rewrite (skipped_all_ok sched fn args n Hok) in Hperm |- *.
    rewrite app_nil_r in Hperm. auto.
Qed.

Lemma multithread_calls_each_item_at_most_once_witness :
  exists calls skipped,
    snd (multithread lifo reciprocal
           [[PyInt 1]; [PyInt 0]; [PyInt 2]; [PyInt 4]; [PyInt 8]]
           (ClassObj Pool) 2 1 2 []) =
      [] ++ PoolStart Pool 2 None :: map Invoke calls ++ [PoolTerminate] /\
    Permutation (calls ++ skipped)
      [[PyInt 1]; [PyInt 0]; [PyInt 2]; [PyInt 4]; [PyInt 8]] /\
    ((forall item,
        In item [[PyInt 1]; [PyInt 0]; [PyInt 2]; [PyInt 4]; [PyInt 8]] ->
        exists v, reciprocal item = Ok v) ->
     skipped = [] /\
     Permutation calls [[PyInt 1]; [PyInt 0]; [PyInt 2]; [PyInt 4]; [PyInt 8]]).
Proof.
  apply (multithread_calls_each_item_at_most_once lifo reciprocal
           [[PyInt 1]; [PyInt 0]; [PyInt 2]; [PyInt 4]; [PyInt 8]]
           Pool 2 1 2 []); lia.
Defined.

(** ** Empty input and chunk sizes that are not positive *)

Lemma starmap_no_batch sched p fn args chunksize t :
  args = [] \/ chunksize <= 0 ->
  starmap sched p fn args chunksize t = (Ok (repeat PyNone (length args)), t).
Proof.
  intros H. unfold starmap. destruct args as [|a args'].
  - erewrite bind_ok by apply starmap_async_empty. reflexivity.
  - erewrite bind_ok by (apply starmap_async_nonempty; discriminate).
    rewrite completions_no_batch by exact H.
    cbn. now rewrite app_nil_r.
Qed.

(** X3: on an empty list of work items both dispatches return the empty
    list, whatever the chunk size: a pool is started and terminated, [fn] is
    not called and nothing is printed. *)
Theorem empty_args_give_empty_result :
  forall sched fn c processes maxtasksperchild chunksize verbose t,
    1 <= processes ->
    multithread sched fn [] (ClassObj c) processes maxtasksperchild chunksize t =
      (Ok [], t ++ [PoolStart c processes None; PoolTerminate]) /\
    multithread_failsafe sched fn [] (ClassObj c) processes chunksize verbose t =
      (Ok [], t ++ [PoolStart c processes None; PoolTerminate]).
Proof.
  intros sched fn c processes m chunksize verbose t Hp. split.
  - rewrite multithread_on_class by assumption.
    rewrite starmap_no_batch by auto. cbn. now rewrite <- app_assoc.
  - now rewrite multithread_failsafe_on_class.
Qed.

Lemma empty_args_give_empty_result_witness :
  multithread lifo reciprocal [] (ClassObj Pool) 3 1 0 [] =
    (Ok [], [] ++ [PoolStart Pool 3 None; PoolTerminate]) /\
  multithread_failsafe lifo reciprocal [] (ClassObj Pool) 3 0 true [] =
    (Ok [], [] ++ [PoolStart Pool 3 None; PoolTerminate]).
Proof.
  apply (empty_args_give_empty_result lifo reciprocal Pool 3 1 0 true []). lia.
Defined.

(** X4: [multithread] hands [chunksize] to [starmap] unchecked; with a chunk
    size of zero or less no batch is formed, [fn] is never called, and the
    result is one [None] per work item. *)
Theorem multithread_nonpositive_chunksize :
  forall sched fn args c processes maxtasksperchild chunksize t,
    1 <= processes -> chunksize <= 0 ->
    multithread sched fn args (ClassObj c) processes maxtasksperchild chunksize t =
    (Ok (repeat PyNone (length args)),
     t ++ [PoolStart c processes None; PoolTerminate]).
Proof.
  intros sched fn args c processes m chunksize t Hp Hcs.
  rewrite multithread_on_class by assumption.
  rewrite starmap_no_batch by auto. cbn. now rewrite <- app_assoc.
Qed.

Lemma multithread_nonpositive_chunksize_witness :
  multithread fifo square [[PyInt 5]; [PyInt 6]] (ClassObj ThreadPool) 1 1 0 [] =
  (Ok (repeat PyNone (length [[PyInt 5]; [PyInt 6]])),
   [] ++ [PoolStart ThreadPool 1 None; PoolTerminate]).
Proof.
  apply (multithread_nonpositive_chunksize fifo square
           [[PyInt 5]; [PyInt 6]] ThreadPool 1 1 0 []); lia.
Defined.

(** ** The failsafe dispatch: what is dropped and what is printed *)

Lemma successes_failures_length fn args :
  (length (successes fn args) + length (failures fn args) = length args)%nat.
Proof.
  induction args as [|a args IH]; simpl; [reflexivity|].
  destruct (fn a); simpl; lia.
Qed.

Lemma printed_exceptions_app t1 t2 :
  printed_exceptions (t1 ++ t2) = printed_exceptions t1 ++ printed_exceptions t2.
Proof.
  induction t1 as [|[] t1 IH]; simpl; try exact IH; [reflexivity|].
  now rewrite IH.
Qed.

Lemma printed_lines_app t1 t2 :
  printed_lines (t1 ++ t2) = printed_lines t1 ++ printed_lines t2.
Proof.
  induction t1 as [|[] t1 IH]; simpl; try exact IH; [reflexivity|].
  now rewrite IH.
Qed.

Lemma printed_exceptions_Invoke items : printed_exceptions (map Invoke items) = [].
Proof. induction items; simpl; auto. Qed.

Lemma printed_lines_Invoke items : printed_lines (map Invoke items) = [].
Proof. induction items; simpl; auto. Qed.

Lemma printed_exceptions_diagnostics fn args :
  printed_exceptions (diagnostics true (map fn args)) = failures fn args.
Proof.
  induction args as [|a args IH]; simpl; [reflexivity|].
  destruct (fn a); simpl; now rewrite IH.
Qed.

Lemma printed_lines_diagnostics fn args :
  printed_lines (diagnostics true (map fn args)) =
  flat_map (fun _ => ["######BEGIN TRACEBACK######";
                      "######END TRACEBACK######"; ""])
           (failures fn args).
Proof.
  induction args as [|a args IH]; simpl; [reflexivity|].
  destruct (fn a); simpl; now rewrite IH.
Qed.

Lemma diagnostics_quiet rs : diagnostics false rs = [].
Proof. induction rs as [|[] rs IH]; simpl; auto. Qed.

(** X5: the failsafe dispatch returns one result per item on which [fn]
    returns, so the result is shorter than [args] by the number of failing
    items; [verbose] does not change the result; with [verbose] the
    traceback of each failing item is printed once, in input order, between
    its two marker lines and a blank line; without it nothing is printed. *)
Theorem multithread_failsafe_accounts_for_every_item :
  forall sched fn args c processes chunksize t,
    1 <= processes ->
    let loud := multithread_failsafe sched fn args (ClassObj c) processes
                  chunksize true t in
    let quiet := multithread_failsafe sched fn args (ClassObj c) processes
                   chunksize false t in
    exists results,
      fst loud = Ok results /\ fst quiet = Ok results /\
      (length results + length (failures fn args) = length args)%nat /\
      printed_exceptions (snd loud) = printed_exceptions t ++ failures fn args /\
      printed_lines (snd loud) =
        printed_lines t ++
        flat_map (fun _ => ["######BEGIN TRACEBACK######";
                            "######END TRACEBACK######"; ""])
                 (failures fn args) /\
      printed_exceptions (snd quiet) = printed_exceptions t /\
      printed_lines (snd quiet) = printed_lines t.
Proof.
  intros sched fn args c processes chunksize t Hp loud quiet.
  exists (successes fn args). subst loud quiet.
  rewrite !multithread_failsafe_on_class by assumption. cbn [fst snd].
  rewrite diagnostics_quiet.
  rewrite !printed_exceptions_app, !printed_lines_app.
  rewrite !printed_exceptions_Invoke, !printed_lines_Invoke.
  rewrite printed_exceptions_diagnostics, printed_lines_diagnostics.
  cbn [printed_exceptions printed_lines app].
  rewrite !app_nil_r.
  repeat split; trivial. apply successes_failures_length.
Qed.

Lemma multithread_failsafe_accounts_for_every_item_witness :
  exists results,
    fst (multithread_failsafe fifo reciprocal
           [[PyInt 0]; [PyInt 4]; [PyStr "x"]] (ClassObj Pool) 2 1 true []) =
      Ok results /\
    fst (multithread_failsafe fifo reciprocal
           [[PyInt 0]; [PyInt 4]; [PyStr "x"]] (ClassObj Pool) 2 1 false []) =
      Ok results /\
    (length results +
     length (failures reciprocal [[PyInt 0]; [PyInt 4]; [PyStr "x"]]) =
     length [[PyInt 0]; [PyInt 4]; [PyStr "x"]])%nat /\
    printed_exceptions
      (snd (multithread_failsafe fifo reciprocal
              [[PyInt 0]; [PyInt 4]; [PyStr "x"]] (ClassObj Pool) 2 1 true [])) =
      printed_exceptions [] ++
      failures reciprocal [[PyInt 0]; [PyInt 4]; [PyStr "x"]] /\
    printed_lines
      (snd (multithread_failsafe fifo reciprocal
              [[PyInt 0]; [PyInt 4]; [PyStr "x"]] (ClassObj Pool) 2 1 true [])) =
      printed_lines [] ++
      flat_map (fun _ => ["######BEGIN TRACEBACK######";
                          "######END TRACEBACK######"; ""])
               (failures reciprocal [[PyInt 0]; [PyInt 4]; [PyStr "x"]]) /\
    printed_exceptions
      (snd (multithread_failsafe fifo reciprocal
              [[PyInt 0]; [PyInt 4]; [PyStr "x"]] (ClassObj Pool) 2 1 false [])) =
      printed_exceptions [] /\
    printed_lines
      (snd (multithread_failsafe fifo reciprocal
              [[PyInt 0]; [PyInt 4]; [PyStr "x"]] (ClassObj Pool) 2 1 false [])) =
      printed_lines [].
Proof.
  apply (multithread_failsafe_accounts_for_every_item fifo reciprocal
           [[PyInt 0]; [PyInt 4]; [PyStr "x"]] Pool 2 1 []). lia.
Defined.

(** ** Exactly one failing item *)




(** ** The deprecated class *)

(** X7: the methods [multithread] and [safe_multithread] of the deprecated
    class do exactly what the free functions of the same names do, result
    and trace, on every input and for every instance. *)
Theorem deprecated_failfast_methods_are_the_functions :
  forall sched self fn args pool_type processes maxtasksperchild chunksize t,
    jwmultithreaded.multithread sched self fn args pool_type processes
      maxtasksperchild chunksize t =
    multithread sched fn args pool_type processes maxtasksperchild chunksize t /\
    jwmultithreaded.safe_multithread sched self fn args processes chunksize t =
    safe_multithread sched fn args processes chunksize t.
Proof. intros. split; reflexivity. Qed.

(** X8: the method [multithread_failsafe] of the deprecated class never
    returns a list.  On a pool it can build it raises [TypeError], because
    it iterates over the one [MapResult] that [starmap_async] returns, and
    the pool is terminated all the same; otherwise the construction of the
    pool raises and nothing is started.  Nothing is printed, whatever
    [verbose] is.  The method [safe_multithread_failsafe] goes through it. *)
Theorem deprecated_failsafe_method_never_returns :
  forall sched self fn args pool_type processes maxtasksperchild chunksize
         verbose t,
    (exists e,
       fst (jwmultithreaded.multithread_failsafe sched self fn args pool_type
              processes maxtasksperchild chunksize verbose t) = Raise e) /\
    (exists e,
       fst (jwmultithreaded.safe_multithread_failsafe sched self fn args
              processes verbose t) = Raise e) /\
    (forall c, pool_type = ClassObj c -> 1 <= processes ->
       exists calls,
         jwmultithreaded.multithread_failsafe sched self fn args pool_type
           processes maxtasksperchild chunksize verbose t =
         (Raise (TypeError "'MapResult' object is not iterable"),
          t ++ PoolStart c processes None :: map Invoke calls ++
            [PoolTerminate])).
Proof.
  intros sched self fn args pool_type processes m chunksize verbose t.
  assert (Built : forall c m' chunksize', 1 <= processes ->
    jwmultithreaded.multithread_failsafe sched self fn args (ClassObj c)
      processes m' chunksize' verbose t =
    (Raise (TypeError "'MapResult' object is not iterable"),
     t ++ PoolStart c processes None ::
       map Invoke (calls_of sched fn args chunksize') ++ [PoolTerminate])).
  { intros c m' chunksize' Hp.
    unfold jwmultithreaded.multithread_failsafe.
    rewrite py_is_class_object.
    eapply eq_trans.
    - eapply with_pool_eval; [now apply call_class_ok|].
      rewrite bind_ret_r.
      pose proof (starmap_trace sched (the_pool c processes None) fn args
                    chunksize' (t ++ [PoolStart c processes None])) as Htr.
      unfold starmap in Htr. unfold bind at 1.
      unfold bind at 1 in Htr.
      destruct (starmap_async sched (the_pool c processes None) fn args
                  chunksize' (t ++ [PoolStart c processes None]))
        as [[mr|e] t1] eqn:E.
      + cbn in Htr. subst t1. reflexivity.
      + exfalso. destruct args as [|a args'].
        * rewrite starmap_async_empty in E. discriminate.
        * rewrite starmap_async_nonempty in E by discriminate. discriminate.
    - now rewrite <- !app_assoc. }
  assert (All : forall pool_type' m' chunksize', exists e,
    fst (jwmultithreaded.multithread_failsafe sched self fn args pool_type'
           processes m' chunksize' verbose t) = Raise e).
  { intros [c|c] m' chunksize'.
    - destruct (Z.le_gt_cases 1 processes) as [Hp|Hp].
      + rewrite Built by assumption. cbn [fst]. eauto.
      + unfold jwmultithreaded.multithread_failsafe.
        rewrite py_is_class_object.
        erewrite with_pool_ctor_raises
          by (apply call_class_too_few; auto; lia). cbn [fst]. eauto.
    - unfold jwmultithreaded.multithread_failsafe.
      destruct (py_is (py_type (InstanceOf c)) (Ty_class Pool));
        erewrite with_pool_ctor_raises by reflexivity; cbn [fst]; eauto. }
  split; [apply All|]. split; [apply All|].
  intros c -> Hp. rewrite Built by assumption. eauto.
Qed.

Lemma deprecated_failsafe_method_never_returns_witness :
  exists calls,
    jwmultithreaded.multithread_failsafe fifo jwmultithreaded.__init__ square
      [[PyInt 2]; [PyInt 3]] (ClassObj Pool) 2 1 1 true [] =
    (Raise (TypeError "'MapResult' object is not iterable"),
     [] ++ PoolStart Pool 2 None :: map Invoke calls ++ [PoolTerminate]).
Proof.
  apply (proj2 (proj2 (deprecated_failsafe_method_never_returns fifo
           jwmultithreaded.__init__ square [[PyInt 2]; [PyInt 3]]
           (ClassObj Pool) 2 1 1 true [])) Pool eq_refl). lia.
Defined.

(** ** [NoDaemonProcess] *)


